(** * baseball-pitches: the force model and the Euler integrator

    A shallow embedding of [npgmath/euler.py], [npgphysics/forces.py] and
    the [Pitch] class of [baseball/pitches.py].

    The Python code is duck-typed over its numbers, so the embedding is
    written once over an interface [Num] and used at two number systems:
    - [float], IEEE 754 binary64 with round-to-nearest-even: what a Python
      [float] and a [numpy.float64] are.  Every concrete run below is
      evaluated here;
    - [R], the real numbers: the exact arithmetic that the floats
      approximate.  The algebraic laws of the force model are stated on the
      floats as far as they hold of them, and in full here.
    Everything about control flow, lists and the fields of a [Pitch] is
    proved for an arbitrary [Num]. *)

From Stdlib Require Import List ZArith Bool String Lia.
From Stdlib Require Import Floats.
From Stdlib Require Import Reals Lra.
Import ListNotations.

Set Warnings "-inexact-float".
Set Implicit Arguments.

(** ** Python exceptions and fallible code *)

Inductive PyError : Type :=
| IndexError        (* a list indexed out of range *)
| ValueError        (* numpy.cross on a vector that has neither 2 nor 3 components *)
| TypeError         (* iterating over a number *)
| ZeroDivisionError (* Python [/] by zero *).

Inductive result (T : Type) : Type :=
| Ok (t : T)
| Raise (e : PyError).

Arguments Ok {T} t.
Arguments Raise {T} e.

Definition bind {T U : Type} (r : result T) (k : T -> result U) : result U :=
  match r with
  | Ok t => k t
  | Raise e => Raise e
  end.

Declare Scope py_scope.
Delimit Scope py_scope with py.
Notation "x <- r ;; k" := (bind r (fun x => k))
  (at level 61, r at next level, right associativity) : py_scope.
Open Scope py_scope.

(** [[f(x) for x in xs]] where [f] may raise: left to right, the first
    exception wins. *)
Fixpoint for_each {T U : Type} (f : T -> result U) (xs : list T) : result (list U) :=
  match xs with
  | [] => Ok []
  | x :: xs' => y <- f x ;; ys <- for_each f xs' ;; Ok (y :: ys)
  end.

(** ** The numbers of the program *)

Class Num (A : Type) : Type := {
  (** an [int] literal, promoted when it meets a float *)
  of_int : Z -> A;
  (** the decimal literal [m / 10^k], as in [lit 12 1] for [1.2] *)
  lit : Z -> nat -> A;
  (** [scipy.constants.pi] *)
  pi : A;
  add : A -> A -> A;
  sub : A -> A -> A;
  mul : A -> A -> A;
  (** numpy's [/]: it never raises *)
  div : A -> A -> A;
  opp : A -> A;
  sqrt : A -> A;
  eqb : A -> A -> bool;
  ltb : A -> A -> bool;
  leb : A -> A -> bool;
  (** the one law of order the integrator relies on *)
  ltb_leb_false : forall a b, leb b a = true -> ltb a b = false
}.

(** Python's [a > b] and [a >= b]. *)
Definition gtb {A} `{Num A} (a b : A) : bool := ltb b a.
Definition geb {A} `{Num A} (a b : A) : bool := leb b a.

(** Python's [/] on two of its own numbers raises on a zero divisor. *)
Definition py_div {A} `{Num A} (a b : A) : result A :=
  if eqb b (of_int 0) then Raise ZeroDivisionError else Ok (div a b).

(** *** Binary64 floats *)

Module Float64.

Definition of_int (z : Z) : float :=
  match z with
  | Z0 => 0%float
  | Zpos p => PrimFloat.of_uint63 (Uint63.of_Z (Zpos p))
  | Zneg p => PrimFloat.opp (PrimFloat.of_uint63 (Uint63.of_Z (Zpos p)))
  end.

(** Correctly rounded as long as [m] and [10^k] are themselves floats
    ([|m| < 2^53], [k <= 22]), which holds of every literal of the
    program. *)
Definition lit (m : Z) (k : nat) : float :=
  PrimFloat.div (of_int m) (of_int (10 ^ Z.of_nat k)).

Definition pi : float := 3.141592653589793%float.

Lemma compare_cont_flip (p q : positive) :
  PosDef.Pos.compare_cont Eq q p = CompOpp (PosDef.Pos.compare_cont Eq p q).
Proof. exact (ZC4 q p). Qed.

Lemma SFcompare_le_not_lt (x y : spec_float) :
  SFleb y x = true -> SFltb x y = false.
Proof.
  unfold SFleb, SFltb.
  destruct x as [sx| sx| |sx mx ex], y as [sy| sy| |sy my ey]; simpl;
    try destruct sx; try destruct sy; simpl; try congruence.
  all: rewrite (Z.compare_antisym ex ey);
    destruct (ex ?= ey)%Z eqn:E; simpl; try congruence;
    rewrite (compare_cont_flip mx my);
    destruct (PosDef.Pos.compare_cont Eq mx my); simpl; congruence.
Qed.

Lemma float_ltb_leb_false (a b : float) :
  PrimFloat.leb b a = true -> PrimFloat.ltb a b = false.
Proof.
  rewrite leb_spec, ltb_spec. apply SFcompare_le_not_lt.
Qed.

End Float64.

#[export] Instance float_Num : Num float := {
  of_int := Float64.of_int;
  lit := Float64.lit;
  pi := Float64.pi;
  add := PrimFloat.add;
  sub := PrimFloat.sub;
  mul := PrimFloat.mul;
  div := PrimFloat.div;
  opp := PrimFloat.opp;
  sqrt := PrimFloat.sqrt;
  eqb := PrimFloat.eqb;
  ltb := PrimFloat.ltb;
  leb := PrimFloat.leb;
  ltb_leb_false := Float64.float_ltb_leb_false
}.

(** The literals of the program, read by [lit], are the floats Python
    reads. *)
Example lit_air_density : lit 12 1 = 1.2%float.
Proof. reflexivity. Qed.

Example lit_g : lit 980665 5 = 9.80665%float.
Proof. reflexivity. Qed.

Example lit_mass : lit 14529 5 = 0.14529%float.
Proof. reflexivity. Qed.

Example lit_radius : lit 3633 5 = 0.03633%float.
Proof. reflexivity. Qed.

Example lit_minus_half : lit (-5) 1 = (-0.5)%float.
Proof. reflexivity. Qed.

(** *** Real numbers *)

Module Real.

Definition lit (m : Z) (k : nat) : R := (IZR m / 10 ^ k)%R.

Definition eqb (a b : R) : bool := if Req_dec_T a b then true else false.
Definition ltb (a b : R) : bool := if Rlt_dec a b then true else false.
Definition leb (a b : R) : bool := if Rle_dec a b then true else false.

Lemma real_ltb_leb_false (a b : R) : leb b a = true -> ltb a b = false.
Proof.
  unfold leb, ltb.
  destruct (Rle_dec b a), (Rlt_dec a b); intros; try reflexivity; try discriminate.
  lra.
Qed.

End Real.

#[export] Instance R_Num : Num R := {
  of_int := IZR;
  lit := Real.lit;
  pi := PI;
  add := Rplus;
  sub := Rminus;
  mul := Rmult;
  div := Rdiv;
  opp := Ropp;
  sqrt := R_sqrt.sqrt;
  eqb := Real.eqb;
  ltb := Real.ltb;
  leb := Real.leb;
  ltb_leb_false := Real.real_ltb_leb_false
}.

(** ** Python idioms shared by the modules *)

Section Idioms.
Context {A : Type} `{Num A}.

(** [[a + b for a, b in zip(u, w)]]: as long as the shorter list. *)
Definition zip_add (u w : list A) : list A :=
  map (fun ab => add (fst ab) (snd ab)) (combine u w).

(** [l[i]] for a non-negative [i]. *)
Definition index {T : Type} (l : list T) (i : nat) : result T :=
  match nth_error l i with
  | Some x => Ok x
  | None => Raise IndexError
  end.

End Idioms.

(** ** npgmath/euler.py *)

Module euler.
Section WithNum.
Context {A : Type} `{Num A}.

Definition new_state (x xp xpp : list A) (increment : A) : list A * list A :=
  (* ex: x = x + x' dt *)
  let new_x := zip_add x (map (fun each_xp => mul each_xp increment) xp) in
  (* ex: x' = x' + x'' dt *)
  let new_xp := zip_add xp (map (fun each_xpp => mul each_xpp increment) xpp) in
  (new_x, new_xp).

End WithNum.
End euler.

(** ** npgphysics/forces.py *)

Module forces.
Section WithNum.
Context {A : Type} `{Num A}.

(** [scipy.constants.g], the standard acceleration of gravity. *)
Definition g : A := lit 980665 5.

Definition air_density : A := lit 12 1.

Definition calculate_gravity (mass : A) : list A :=
  [of_int 0; mul (mul (of_int (-1)) g) mass; of_int 0].

(** [numpy.dot] of two vectors: the sum of the products, from the left. *)
Definition dot (a b : list A) : A :=
  fold_left (fun acc ab => add acc (mul (fst ab) (snd ab))) (combine a b) (of_int 0).

(** [numpy.cross] of two vectors, followed by [tolist()].  A vector with
    neither 2 nor 3 components is refused with ValueError; a missing third
    component is read as zero by numpy, which leaves the products with it
    out.  For two 2-component vectors numpy returns a number, not a list,
    and [zip] in [add_forces], where every caller sends it, raises TypeError
    on it: the model raises it here. *)
Definition cross (a b : list A) : result (list A) :=
  match a, b with
  | [a0; a1; a2], [b0; b1; b2] =>
      Ok [sub (mul a1 b2) (mul a2 b1);
          sub (mul a2 b0) (mul a0 b2);
          sub (mul a0 b1) (mul a1 b0)]
  | [a0; a1], [b0; b1; b2] =>
      Ok [mul a1 b2; opp (mul a0 b2); sub (mul a0 b1) (mul a1 b0)]
  | [a0; a1; a2], [b0; b1] =>
      Ok [opp (mul a2 b1); mul a2 b0; sub (mul a0 b1) (mul a1 b0)]
  | [a0; a1], [b0; b1] => Raise TypeError
  | _, _ => Raise ValueError
  end.

Definition calculate_drag (velocity : list A) (area drag_coefficient : A) : list A :=
  let magnitude := sqrt (dot velocity velocity) in
  let unit_vector := map (fun v => div v magnitude) velocity in
  let force :=
    map (mul (mul (mul (mul (mul (lit (-5) 1) drag_coefficient) area) air_density)
                  (mul magnitude magnitude)))
        unit_vector in
  force.

(** [|v|], as [calculate_drag] computes it. *)
Definition magnitude (v : list A) : A := sqrt (dot v v).

Definition calculate_magnus (velocity spin : list A) : result (list A) :=
  cross velocity spin.

Definition add_forces (forces : list (list A)) : list A :=
  fold_left (fun net_force f => zip_add net_force f) forces
            [of_int 0; of_int 0; of_int 0].

Definition calculate_net_force (mass : A) (velocity : list A)
    (area drag_coefficient : A) (spin : list A) : result (list A) :=
  magnus <- calculate_magnus velocity spin ;;
  Ok (add_forces [calculate_gravity mass;
                  calculate_drag velocity area drag_coefficient;
                  magnus]).

Definition calculate_drag_and_magnus (velocity : list A)
    (area drag_coefficient : A) (spin : list A) : result (list A) :=
  magnus <- calculate_magnus velocity spin ;;
  Ok (add_forces [calculate_drag velocity area drag_coefficient; magnus]).

End WithNum.
End forces.

(** ** baseball/pitches.py *)

Module pitches.
Section WithNum.
Context {A : Type} `{Num A}.

(** The attributes that [self] shows: those of the class, which no method
    assigns, and those that [__init__] sets on the object. *)
Record Pitch : Type := mkPitch {
  mass : A;
  drag_coefficient : A;
  radius : A;
  area : A;
  default_position : list A;
  default_velocity : list A;
  label : string;
  color : string;
  position : list A;
  trail : list (list A);
  velocity : list A;
  spin : list A
}.

Definition class_mass : A := lit 14529 5.
Definition class_drag_coefficient : A := lit 4 1.
Definition class_radius : A := lit 3633 5.
Definition class_area : A := mul pi (mul class_radius class_radius).
Definition class_default_position : list A := [lit 0 1; lit 190 2; lit (-6) 1].
Definition class_default_velocity : list A := [lit 420 1; lit (-2) 1; lit 13 1].

Definition __init__ (p v s : list A) (l c : string) : Pitch :=
  {| mass := class_mass;
     drag_coefficient := class_drag_coefficient;
     radius := class_radius;
     area := class_area;
     default_position := class_default_position;
     default_velocity := class_default_velocity;
     label := l;
     color := c;
     position := p;
     trail := [p];
     velocity := v;
     spin := s |}.

(** [Pitch(p, v, s)], with the defaults of [l] and [c]. *)
Definition custom_pitch (p v s : list A) : Pitch :=
  __init__ p v s "Custom Pitch" "gray".

(** The test of the [while], [position[0] < distance and position[1] > 0],
    on a position: [and] does not read [position[1]] when the first
    comparison fails. *)
Definition while_test (position : list A) (distance : A) : result bool :=
  x <- index position 0 ;;
  if ltb x distance
  then y <- index position 1 ;; Ok (gtb y (of_int 0))
  else Ok false.

Definition in_flight (self : Pitch) (distance : A) : result bool :=
  while_test (position self) distance.

(** The body of the [while], once. *)
Definition step (f_gravity : list A) (dt : A) (self : Pitch) : result Pitch :=
  magnus <- forces.calculate_magnus (velocity self) (spin self) ;;
  let net_force :=
    forces.add_forces
      [f_gravity;
       forces.calculate_drag (velocity self) (area self) (drag_coefficient self);
       magnus] in
  acceleration <- for_each (fun f => py_div f (mass self)) net_force ;;
  let new := euler.new_state (position self) (velocity self) acceleration dt in
  Ok {| mass := mass self;
        drag_coefficient := drag_coefficient self;
        radius := radius self;
        area := area self;
        default_position := default_position self;
        default_velocity := default_velocity self;
        label := label self;
        color := color self;
        position := fst new;
        trail := trail self ++ [fst new];
        velocity := snd new;
        spin := spin self |}.

(** The [while] loop.  [None]: the loop is still running when the fuel is
    spent. *)
Fixpoint throw_loop (fuel : nat) (f_gravity : list A) (distance dt : A)
    (self : Pitch) : option (result Pitch) :=
  match in_flight self distance with
  | Raise e => Some (Raise e)
  | Ok false => Some (Ok self)
  | Ok true =>
      match fuel with
      | O => None
      | S fuel' =>
          match step f_gravity dt self with
          | Raise e => Some (Raise e)
          | Ok self' => throw_loop fuel' f_gravity distance dt self'
          end
      end
  end.

Definition throw (fuel : nat) (self : Pitch) (distance dt : A)
    : option (result Pitch) :=
  let f_gravity := forces.calculate_gravity (mass self) in
  throw_loop fuel f_gravity distance dt self.

(** [k] runs of the body in a row, the test of the loop left out. *)
Fixpoint steps (k : nat) (f_gravity : list A) (dt : A) (self : Pitch)
    : result Pitch :=
  match k with
  | O => Ok self
  | S k' => self' <- step f_gravity dt self ;; steps k' f_gravity dt self'
  end.

(** The loop leaves [self'] behind after exactly [k] runs of its body: the
    test holds of the first [k] states and fails at the next, [self']. *)
Definition leaves_after (k : nat) (f_gravity : list A) (distance dt : A)
    (self self' : Pitch) : Prop :=
  steps k f_gravity dt self = Ok self' /\
  in_flight self' distance = Ok false /\
  forall (j : nat) (sj : Pitch),
    (j < k)%nat -> steps j f_gravity dt self = Ok sj ->
    in_flight sj distance = Ok true.

(** The predefined pitches. *)
Definition FourSeamFastball (color : string) : Pitch :=
  __init__ class_default_position class_default_velocity
           [lit 5 2; lit 0 1; lit (-3) 2] "4-Seam Fastball" color.

Definition Slider (color : string) : Pitch :=
  __init__ class_default_position class_default_velocity
           [lit 0 2; lit 24 3; lit 2 2] "Slider" color.

Definition TwoSeamFastball (color : string) : Pitch :=
  __init__ class_default_position class_default_velocity
           [lit 0 2; lit (-8) 3; lit (-2) 2] "2-Seam Fastball" color.

Definition Changeup (color : string) : Pitch :=
  __init__ class_default_position class_default_velocity
           [lit 0 2; lit (-2) 3; lit (-1) 2] "Changeup" color.

Definition Curveball (color : string) : Pitch :=
  __init__ class_default_position class_default_velocity
           [lit 0 2; lit 16 3; lit 3 2] "Curveball" color.

Definition Screwball (color : string) : Pitch :=
  __init__ class_default_position class_default_velocity
           [lit 0 2; lit (-16) 3; lit 18 3] "Screwball" color.

Definition Knuckleball (color : string) : Pitch :=
  __init__ class_default_position class_default_velocity
           [lit 0 2; lit 15 4; lit 0 2] "Knuckleball" color.

Definition Testball (color : string) : Pitch :=
  __init__ class_default_position class_default_velocity
           [lit 0 2; lit 0 2; lit (-3) 2] "Testball" color.

End WithNum.

Arguments Pitch A : clear implicits.

End pitches.

(** ** baseball/baseball_plotter.py *)

Module baseball_plotter.
Section WithNum.
Context {A : Type} `{Num A}.

(** line width *)
Definition lw : A := lit 10 1.

(** [[a[i] for a in input_list]], for an axis [i >= 0]. *)
Definition get_axis {T : Type} (input_list : list (list T)) (i : nat)
    : result (list T) :=
  for_each (fun a => index a i) input_list.

(** What matplotlib keeps of the calls the plotter makes: the lines drawn
    into an [Axes], and its settings. *)
Inductive Artist : Type :=
| Line2D (xdata ydata : list A) (color label : string) (linewidth : A)
| AxHLine (y : A) (linestyle color : string) (label : option string)
          (linewidth : A).

Record Axes : Type := mkAxes {
  ylim : option (A * A);
  xlabel : option string;
  ylabel : option string;
  title : option string;
  artists : list Artist;
  legend : option string
}.

Definition empty_axes : Axes :=
  {| ylim := None; xlabel := None; ylabel := None; title := None;
     artists := []; legend := None |}.

(** [axes.plot(x, y, color=, label=, linewidth=)]: one more line; matplotlib
    refuses an [x] and a [y] of different lengths with ValueError. *)
Definition plot (ax : Axes) (x y : list A) (color label : string)
    (linewidth : A) : result Axes :=
  if Nat.eqb (List.length x) (List.length y)
  then Ok {| ylim := ylim ax; xlabel := xlabel ax; ylabel := ylabel ax;
             title := title ax;
             artists := artists ax ++ [Line2D x y color label linewidth];
             legend := legend ax |}
  else Raise ValueError.

(** [axes.axhline(y=, linestyle=, color=, label=, linewidth=)] *)
Definition axhline (ax : Axes) (y : A) (linestyle color : string)
    (label : option string) (linewidth : A) : Axes :=
  {| ylim := ylim ax; xlabel := xlabel ax; ylabel := ylabel ax;
     title := title ax;
     artists := artists ax ++ [AxHLine y linestyle color label linewidth];
     legend := legend ax |}.

Record BaseballPlotter : Type := mkPlotter {
  facecolor : string;
  axes_1 : Axes;
  axes_2 : Axes;
  shown : bool
}.

Definition __init__ : BaseballPlotter :=
  {| facecolor := "tan";
     axes_1 := {| ylim := Some (lit 0 1, lit 20 1);
                  xlabel := None;
                  ylabel := Some "Height (m)"%string;
                  title := Some "Side View of Trajectory"%string;
                  artists := [];
                  legend := None |};
     axes_2 := {| ylim := Some (lit (-75) 2, lit 75 2);
                  xlabel := Some "Depth (m)"%string;
                  ylabel := Some "Width (m)"%string;
                  title := Some "Top View of Trajectory"%string;
                  artists := [];
                  legend := None |};
     shown := false |}.

(** The plotter after the call, and how the call ended: an exception of the
    second [plot] leaves the line of the first in [axes_1]. *)
Definition add_to_plot (self : BaseballPlotter) (pitch : pitches.Pitch A)
    : BaseballPlotter * result unit :=
  (* plot Y (height) versus X (depth) *)
  match (x <- get_axis (pitches.trail pitch) 0 ;;
         y <- get_axis (pitches.trail pitch) 1 ;;
         plot (axes_1 self) x y (pitches.color pitch) (pitches.label pitch) lw)
  with
  | Raise e => (self, Raise e)
  | Ok ax1 =>
      let self1 := {| facecolor := facecolor self; axes_1 := ax1;
                      axes_2 := axes_2 self; shown := shown self |} in
      (* plot Z (width) versus X (depth) *)
      match (x <- get_axis (pitches.trail pitch) 0 ;;
             z <- get_axis (pitches.trail pitch) 2 ;;
             plot (axes_2 self1) x z (pitches.color pitch)
                  (pitches.label pitch) lw)
      with
      | Raise e => (self1, Raise e)
      | Ok ax2 =>
          ({| facecolor := facecolor self1; axes_1 := axes_1 self1;
              axes_2 := ax2; shown := shown self1 |}, Ok tt)
      end
  end.

Definition plot_strike_zone (self : BaseballPlotter) : BaseballPlotter :=
  let ax1 := axhline (axes_1 self) (lit 45 2) "--" "red"
                     (Some "Strike zone"%string) lw in
  let ax1 := axhline ax1 (lit 105 2) "--" "red" None lw in
  let ax2 := axhline (axes_2 self) (lit 235 3) "--" "red"
                     (Some "Strike zone"%string) lw in
  let ax2 := axhline ax2 (lit (-235) 3) "--" "red" None lw in
  {| facecolor := facecolor self; axes_1 := ax1; axes_2 := ax2;
     shown := shown self |}.

Definition with_legend (ax : Axes) (loc : string) : Axes :=
  {| ylim := ylim ax; xlabel := xlabel ax; ylabel := ylabel ax;
     title := title ax; artists := artists ax; legend := Some loc |}.

Definition show_plots (self : BaseballPlotter) : BaseballPlotter :=
  {| facecolor := facecolor self;
     axes_1 := with_legend (axes_1 self) "lower left";
     axes_2 := with_legend (axes_2 self) "upper left";
     shown := true |}.

End WithNum.

Arguments Artist A : clear implicits.
Arguments Axes A : clear implicits.
Arguments BaseballPlotter A : clear implicits.

End baseball_plotter.

(** ** baseball/play_ball.py *)

Module play_ball.
Section WithNum.
Context {A : Type} `{Num A}.

(** distance to throw the ball in meters *)
Definition distance : A := of_int 18.

(** in seconds *)
Definition default_increment : A := lit 1 3.

(** The seven pitches of [my_pitches], each with the default color of its
    class. *)
Definition my_pitches : list (pitches.Pitch A) :=
  [pitches.Knuckleball "deeppink"; pitches.FourSeamFastball "black";
   pitches.TwoSeamFastball "blue"; pitches.Slider "green";
   pitches.Curveball "mediumorchid"; pitches.Changeup "orange";
   pitches.Screwball "teal"].

(** [for p in ps: p.throw(distance, increment); my_plotter.add_to_plot(p)].
    [None]: a throw is still running when its fuel is spent. *)
Fixpoint play_loop (fuel : nat) (increment : A)
    (my_plotter : baseball_plotter.BaseballPlotter A)
    (ps : list (pitches.Pitch A))
    : option (baseball_plotter.BaseballPlotter A * result unit) :=
  match ps with
  | [] => Some (my_plotter, Ok tt)
  | p :: ps' =>
      match pitches.throw fuel p distance increment with
      | None => None
      | Some (Raise e) => Some (my_plotter, Raise e)
      | Some (Ok p') =>
          match baseball_plotter.add_to_plot my_plotter p' with
          | (my_plotter', Raise e) => Some (my_plotter', Raise e)
          | (my_plotter', Ok _) => play_loop fuel increment my_plotter' ps'
          end
      end
  end.

(** The figure that [lets_play] has built when it ends, and how it ended. *)
Definition lets_play (fuel : nat) (increment : A)
    : option (baseball_plotter.BaseballPlotter A * result unit) :=
  let my_plotter := baseball_plotter.__init__ in
  match play_loop fuel increment my_plotter my_pitches with
  | None => None
  | Some (my_plotter, Raise e) => Some (my_plotter, Raise e)
  | Some (my_plotter, Ok _) =>
      let my_plotter := baseball_plotter.plot_strike_zone my_plotter in
      let my_plotter := baseball_plotter.show_plots my_plotter in
      Some (my_plotter, Ok tt)
  end.

(** [for p in ps: p.throw(distance, increment)]: the pitches as the loop
    leaves them. *)
Fixpoint throw_all (fuel : nat) (increment : A) (ps : list (pitches.Pitch A))
    : option (result (list (pitches.Pitch A))) :=
  match ps with
  | [] => Some (Ok [])
  | p :: ps' =>
      match pitches.throw fuel p distance increment with
      | None => None
      | Some (Raise e) => Some (Raise e)
      | Some (Ok p') =>
          match throw_all fuel increment ps' with
          | None => None
          | Some (Raise e) => Some (Raise e)
          | Some (Ok ps'') => Some (Ok (p' :: ps''))
          end
      end
  end.

Definition just_throw (fuel : nat) (increment : A)
    : option (result (list (pitches.Pitch A))) :=
  throw_all fuel increment my_pitches.

End WithNum.
End play_ball.

(** ** analytics/quick_plot.py *)

Module quick_plot.
Section WithNum.
Context {A : Type} `{Num A}.

(** [numpy.maximum] of two numbers: the first when it is [>=] the second
    or is not-a-number, the second otherwise. *)
Definition maximum (a b : A) : A :=
  if geb a b || negb (eqb a a) then a else b.

(** The script calls [f1] and [f2] with a numpy array.  On an array the
    operators of numpy work element by element and raise nothing; [x**2]
    is the product of each element with itself. *)
Definition f1 (x : list A) : list A :=
  map (fun t => sub t (lit 5922626 8)) (map (mul (lit 1257049 10)) x).

Definition f2 (x : list A) : list A :=
  let y :=
    zip_add
      (map (sub (lit 4037875 7)) (map (mul (lit 3047912 10)) x))
      (map (mul (mul (lit 3598094 6) (div (of_int 1) (of_int (10 ^ 8)))))
           (map (fun xi => mul xi xi) x)) in
  map (fun ab => maximum (fst ab) (snd ab)) (combine y (f1 x)).

(** [arange(0.0, 50000.0, 1.0)]: the numbers 0.0, 1.0, ..., 49999.0. *)
Definition xrange : list A :=
  map (fun i => of_int (Z.of_nat i)) (seq 0 (Z.to_nat 50000)).

End WithNum.
End quick_plot.

(** ** Pitches of binary64 floats used below *)

Module Runs.
Import pitches.

(** Released at (0, 1, 0) with 10 m/s along x and no spin. *)
Definition slow_ball : Pitch float :=
  custom_pitch [0; 1; 0]%float [10; 0; 0]%float [0; 0; 0]%float.

(** [slow_ball.throw(5.0, 1.0)]: one step, to x = 10. *)
Definition slow_ball_thrown : Pitch float :=
  Eval vm_compute in
    match throw 1 slow_ball 5%float 1%float with
    | Some (Ok self') => self'
    | _ => slow_ball
    end.

(** [slow_ball.throw(3.0, 0.125)]: three steps. *)
Definition slow_ball_thrown_short : Pitch float :=
  Eval vm_compute in
    match throw 3 slow_ball 3%float 0.125%float with
    | Some (Ok self') => self'
    | _ => slow_ball
    end.

(** [slow_ball] with another trail. *)
Definition slow_ball_with_trail (t : list (list float)) : Pitch float :=
  {| mass := mass slow_ball;
     drag_coefficient := drag_coefficient slow_ball;
     radius := radius slow_ball;
     area := area slow_ball;
     default_position := default_position slow_ball;
     default_velocity := default_velocity slow_ball;
     label := label slow_ball;
     color := color slow_ball;
     position := position slow_ball;
     trail := t;
     velocity := velocity slow_ball;
     spin := spin slow_ball |}.

(** A position of two components beside a velocity and a spin of three. *)
Definition flat_ball : Pitch float :=
  custom_pitch [0; 1]%float [10; 0; 0]%float [0; 0; 0]%float.

(** Released beyond the plate at 18 m. *)
Definition far_ball : Pitch float :=
  custom_pitch [20; 1; 0]%float [10; 0; 0]%float [0; 0; 0]%float.

(** [Knuckleball().throw(18, 0.001)], as [play_ball] throws it. *)
Definition knuckleball_thrown : Pitch float :=
  Eval vm_compute in
    match throw 1000 (Knuckleball "deeppink") (of_int 18) (lit 1 3) with
    | Some (Ok self') => self'
    | _ => Knuckleball "deeppink"
    end.

End Runs.

(** ** More pitches of binary64 floats *)

Module MoreRuns.
Import pitches.

(** [Knuckleball()], as [play_ball] makes it. *)
Definition knuckleball : Pitch float := Knuckleball "deeppink".

(** [slow_ball] after [slow_ball.mass = 0.0]. *)
Definition massless_ball : Pitch float :=
  {| mass := 0%float;
     drag_coefficient := drag_coefficient Runs.slow_ball;
     radius := radius Runs.slow_ball;
     area := area Runs.slow_ball;
     default_position := default_position Runs.slow_ball;
     default_velocity := default_velocity Runs.slow_ball;
     label := label Runs.slow_ball;
     color := color Runs.slow_ball;
     position := position Runs.slow_ball;
     trail := trail Runs.slow_ball;
     velocity := velocity Runs.slow_ball;
     spin := spin Runs.slow_ball |}.

(** A position of one component, and a spin of one. *)
Definition point_ball : Pitch float :=
  custom_pitch [0]%float [10; 0; 0]%float [0; 0; 0]%float.

Definition one_spin_ball : Pitch float :=
  custom_pitch [0; 1; 0]%float [10; 0; 0]%float [0]%float.

(** [slow_ball.throw(5.0, 0.125)], and the same ball thrown to 3.0 first. *)
Definition slow_ball_thrown_to_5 : Pitch float :=
  Eval vm_compute in
    match throw 10 Runs.slow_ball 5%float 0.125%float with
    | Some (Ok self') => self'
    | _ => Runs.slow_ball
    end.

(** [lets_play(0.01)] and [just_throw(0.01)]: the figure and the pitches when
    they end. *)
Definition figure_of_lets_play : baseball_plotter.BaseballPlotter float :=
  Eval vm_compute in
    match play_ball.lets_play 100 (lit 1 2) with
    | Some (my_plotter, _) => my_plotter
    | None => baseball_plotter.__init__
    end.

Definition pitches_of_just_throw : list (Pitch float) :=
  Eval vm_compute in
    match play_ball.just_throw 100 (lit 1 2) with
    | Some (Ok ps) => ps
    | _ => []
    end.

End MoreRuns.

(** * Properties *)

Unset Implicit Arguments.

(** ** The docstring examples, run on binary64 floats *)

Example calculate_gravity_docstring :
  forces.calculate_gravity 81.6%float
  = [0%float; (-800.2226399999998)%float; 0%float].
Proof. reflexivity. Qed.

(** The docstring prints this force to eight decimals:
    [-1.32074929, 2.73583781, -0.56603541]. *)
Example calculate_drag_docstring :
  forces.calculate_drag [1.4; -2.9; 0.6]%float 0.4%float 1.2%float
  = [-1.3207492855193974; 2.7358378057187522; -0.56603540807974184]%float.
Proof. reflexivity. Qed.

Example calculate_magnus_docstring :
  forces.calculate_magnus [42.0; -0.2; 1.3]%float [0.01; 0.02; 0.03]%float
  = Ok [-0.032; -1.247; 0.842]%float.
Proof. reflexivity. Qed.

(** ** Lists built by [zip] *)

Section ZipFacts.
Context {A : Type} `{Num A}.

Lemma zip_add_length (u w : list A) :
  List.length (zip_add u w) = Nat.min (List.length u) (List.length w).
Proof.
  unfold zip_add. rewrite length_map. apply length_combine.
Qed.

Lemma zip_add_nth_error (u w : list A) (i : nat) (a b : A) :
  nth_error u i = Some a ->
  nth_error w i = Some b ->
  nth_error (zip_add u w) i = Some (add a b).
Proof.
  revert w i.
  induction u as [|a' u IH]; intros [|b' w] [|i]; simpl; try discriminate.
  - intros [= ->] [= ->]. reflexivity.
  - intros Hu Hw. apply (IH w i Hu Hw).
Qed.

Lemma nth_error_scaled (xs : list A) (k : A) (i : nat) (x : A) :
  nth_error xs i = Some x ->
  nth_error (map (fun each => mul each k) xs) i = Some (mul x k).
Proof.
  intros Hx. rewrite nth_error_map, Hx. reflexivity.
Qed.

End ZipFacts.

(** ** The Euler step *)

(** C3.  [new_state x xp xpp dt] is, axis by axis, [x[i] + xp[i]*dt] and
    [xp[i] + xpp[i]*dt], and as long as its arguments when they agree in
    length; on the example of the docstring the binary64 result is exactly
    the one printed there. *)
Theorem new_state_is_the_euler_step :
  (forall (A : Type) (N : Num A) (x xp xpp : list A) (dt : A),
      List.length x = List.length xp ->
      List.length xp = List.length xpp ->
      let new := euler.new_state x xp xpp dt in
      List.length (fst new) = List.length x /\
      List.length (snd new) = List.length x /\
      forall (i : nat) (xi vi ai : A),
        nth_error x i = Some xi ->
        nth_error xp i = Some vi ->
        nth_error xpp i = Some ai ->
        nth_error (fst new) i = Some (add xi (mul vi dt)) /\
        nth_error (snd new) i = Some (add vi (mul ai dt)))
  /\
  euler.new_state [10.0; 12.5; 7.2]%float [1.4; -2.9; 2.0]%float
                  [0.1; -0.2; -1.0]%float 0.5%float
  = ([10.7; 11.05; 8.2]%float, [1.45; -3.0; 1.5]%float).
Proof.
  split; [|reflexivity].
  intros A N x xp xpp dt Hx Hxp. unfold euler.new_state. simpl.
  repeat split.
  - rewrite zip_add_length, length_map. lia.
  - rewrite zip_add_length, length_map. lia.
  - apply zip_add_nth_error; [assumption|]. now apply nth_error_scaled.
  - apply zip_add_nth_error; [assumption|]. now apply nth_error_scaled.
Qed.

Lemma new_state_is_the_euler_step_witness :
  let new := euler.new_state [3; 4]%float [1; 2]%float [5; 6]%float 2%float in
  List.length (fst new) = 2%nat /\
  List.length (snd new) = 2%nat /\
  forall (i : nat) (xi vi ai : float),
    nth_error [3; 4]%float i = Some xi ->
    nth_error [1; 2]%float i = Some vi ->
    nth_error [5; 6]%float i = Some ai ->
    nth_error (fst new) i = Some (add xi (mul vi 2%float)) /\
    nth_error (snd new) i = Some (add vi (mul ai 2%float)).
Proof.
  apply (proj1 new_state_is_the_euler_step float float_Num
               [3; 4]%float [1; 2]%float [5; 6]%float 2%float);
    reflexivity.
Defined.

(** ** The force model *)

(** *** Drag at rest, on binary64 floats *)

Lemma mul_nan_r (k : float) : mul k nan = nan.
Proof.
  change (PrimFloat.mul k nan = nan).
  apply Prim2SF_inj. rewrite mul_spec.
  change (Prim2SF nan) with S754_nan.
  unfold SF64mul, SFmul. destruct (Prim2SF k); reflexivity.
Qed.

(** C1 fails on the code: with the velocity at rest the magnitude is 0.0,
    numpy's [velocity / magnitude] is 0.0/0.0 in every component, and the
    force that [calculate_drag] returns is not-a-number three times,
    whatever the area and the drag coefficient; a not-a-number is not
    [== 0.0]. *)
Theorem calculate_drag_at_rest_is_nan (area drag_coefficient : float) :
  forces.calculate_drag [0; 0; 0]%float area drag_coefficient = [nan; nan; nan]
  /\ PrimFloat.eqb nan 0 = false.
Proof.
  split; [|reflexivity].
  unfold forces.calculate_drag.
  change (sqrt (forces.dot [0; 0; 0]%float [0; 0; 0]%float)) with 0%float.
  change (map (fun v : float => div v 0%float) [0; 0; 0]%float)
    with [nan; nan; nan].
  cbn [map]. rewrite !mul_nan_r. reflexivity.
Qed.

(** *** The sum of forces *)

Section AddForces.
Context {A : Type} `{Num A}.

Lemma fold_zip_add_length (fs : list (list A)) (acc : list A) :
  List.length (fold_left (fun net_force f => zip_add net_force f) fs acc)
  = fold_left (fun n f => Nat.min n (List.length f)) fs (List.length acc).
Proof.
  revert acc. induction fs as [|f fs IH]; intros acc; simpl.
  - reflexivity.
  - rewrite IH, zip_add_length. reflexivity.
Qed.

Lemma add_forces_length (fs : list (list A)) :
  List.length (forces.add_forces fs)
  = fold_left (fun n f => Nat.min n (List.length f)) fs 3%nat.
Proof.
  unfold forces.add_forces. rewrite fold_zip_add_length. reflexivity.
Qed.

Lemma fold_min_le (fs : list (list A)) (n : nat) :
  (fold_left (fun n f => Nat.min n (List.length f)) fs n <= n)%nat.
Proof.
  revert n. induction fs as [|f fs IH]; intros n; simpl.
  - lia.
  - specialize (IH (Nat.min n (List.length f))). lia.
Qed.

(** A component that every force has is summed from the left, from the
    0 of the start. *)
Lemma fold_zip_add_nth_error (fs : list (list A)) (xs : list A)
    (acc : list A) (a : A) (i : nat) :
  nth_error acc i = Some a ->
  Forall2 (fun f x => nth_error f i = Some x) fs xs ->
  nth_error (fold_left (fun net_force f => zip_add net_force f) fs acc) i
  = Some (fold_left add xs a).
Proof.
  intros Hacc Hfs. revert acc a Hacc.
  induction Hfs as [|f x fs xs Hf _ IH]; intros acc a Hacc; simpl.
  - exact Hacc.
  - apply IH. apply zip_add_nth_error; assumption.
Qed.

End AddForces.

(** C5 fails on the code: the sum starts from [[0, 0, 0]], so the result is
    as long as the shortest of the inputs and of that list, never longer
    than 3; one force of four components comes back with three.  What the
    claim says of the components holds: each of the first three that every
    force has is the sum of that component over the forces. *)
Theorem add_forces_never_longer_than_three :
  (forall (A : Type) (N : Num A) (fs : list (list A)),
      List.length (forces.add_forces fs)
      = fold_left (fun n f => Nat.min n (List.length f)) fs 3%nat
      /\ (List.length (forces.add_forces fs) <= 3)%nat)
  /\
  (forall (A : Type) (N : Num A) (fs : list (list A)) (xs : list A) (i : nat),
      (i < 3)%nat ->
      Forall2 (fun f x => nth_error f i = Some x) fs xs ->
      nth_error (forces.add_forces fs) i = Some (fold_left add xs (of_int 0)))
  /\
  forces.add_forces [[1; 2; 3; 4]%float] = [1; 2; 3]%float.
Proof.
  split; [|split; [|reflexivity]].
  - intros A N fs. rewrite add_forces_length. split; [reflexivity|].
    apply fold_min_le.
  - intros A N fs xs i Hi Hfs. unfold forces.add_forces.
    apply fold_zip_add_nth_error; [|exact Hfs].
    destruct i as [|[|[|i]]]; try reflexivity. lia.
Qed.

(** ** The integrator *)

Section ThrowFacts.
Context {A : Type} `{Num A}.
Variables (f_gravity : list A) (distance dt : A).

Import pitches.

Ltac step_inv Hstep :=
  unfold step in Hstep;
  destruct (forces.calculate_magnus _ _); simpl in Hstep; [|discriminate];
  destruct (for_each _ _); simpl in Hstep; [|discriminate];
  injection Hstep as <-.

(** What one run of the body leaves alone, and what it does to the trail. *)
Lemma step_frame (self self' : Pitch A) :
  step f_gravity dt self = Ok self' ->
  mass self' = mass self /\
  drag_coefficient self' = drag_coefficient self /\
  radius self' = radius self /\
  area self' = area self /\
  default_position self' = default_position self /\
  default_velocity self' = default_velocity self /\
  label self' = label self /\
  color self' = color self /\
  spin self' = spin self.
Proof.
  intros Hstep. step_inv Hstep. simpl. repeat split.
Qed.

Lemma step_trail (self self' : Pitch A) :
  step f_gravity dt self = Ok self' ->
  trail self' = trail self ++ [position self'].
Proof.
  intros Hstep. step_inv Hstep. reflexivity.
Qed.

Lemma steps_S (k : nat) (self : Pitch A) :
  steps (S k) f_gravity dt self
  = (self' <- step f_gravity dt self ;; steps k f_gravity dt self').
Proof. reflexivity. Qed.

Lemma steps_add (j m : nat) (self : Pitch A) :
  steps (j + m) f_gravity dt self
  = (sj <- steps j f_gravity dt self ;; steps m f_gravity dt sj).
Proof.
  revert self. induction j as [|j IH]; intros self; simpl.
  - reflexivity.
  - destruct (step f_gravity dt self) as [s1|e]; simpl; [apply IH|reflexivity].
Qed.

Lemma steps_snoc (k : nat) (self : Pitch A) :
  steps (S k) f_gravity dt self
  = (sk <- steps k f_gravity dt self ;; step f_gravity dt sk).
Proof.
  replace (S k) with (k + 1)%nat by lia. rewrite steps_add.
  destruct (steps k f_gravity dt self) as [sk|e]; simpl; [|reflexivity].
  destruct (step f_gravity dt sk); reflexivity.
Qed.

(** A run of [k] steps passes through a state after each [j <= k]. *)
Lemma steps_prefix (j k : nat) (self self' : Pitch A) :
  (j <= k)%nat ->
  steps k f_gravity dt self = Ok self' ->
  exists sj, steps j f_gravity dt self = Ok sj /\
             steps (k - j) f_gravity dt sj = Ok self'.
Proof.
  intros Hjk Hk. replace k with (j + (k - j))%nat in Hk by lia.
  rewrite steps_add in Hk.
  destruct (steps j f_gravity dt self) as [sj|e]; simpl in Hk; [|discriminate].
  exists sj. split; [reflexivity|assumption].
Qed.

Lemma steps_frame (k : nat) (self self' : Pitch A) :
  steps k f_gravity dt self = Ok self' ->
  mass self' = mass self /\
  drag_coefficient self' = drag_coefficient self /\
  radius self' = radius self /\
  area self' = area self /\
  default_position self' = default_position self /\
  default_velocity self' = default_velocity self /\
  label self' = label self /\
  color self' = color self /\
  spin self' = spin self.
Proof.
  revert self. induction k as [|k IH]; intros self; simpl.
  - intros [= ->]. repeat split.
  - destruct (step f_gravity dt self) as [s1|e] eqn:Hstep; simpl; [|discriminate].
    intros Hk. apply IH in Hk. apply step_frame in Hstep.
    intuition congruence.
Qed.

(** [k] steps append [k] positions and touch nothing that was there. *)
Lemma steps_trail (k : nat) (self self' : Pitch A) :
  steps k f_gravity dt self = Ok self' ->
  exists new, trail self' = trail self ++ new /\ List.length new = k.
Proof.
  revert self. induction k as [|k IH]; intros self; simpl.
  - intros [= ->]. exists []. rewrite app_nil_r. split; reflexivity.
  - destruct (step f_gravity dt self) as [s1|e] eqn:Hstep; simpl; [|discriminate].
    intros Hk. destruct (IH _ Hk) as (new & Hnew & Hlen).
    apply step_trail in Hstep.
    exists (position s1 :: new). split; [|simpl; congruence].
    rewrite Hnew, Hstep, <- app_assoc. reflexivity.
Qed.

Lemma steps_trail_length (k : nat) (self self' : Pitch A) :
  steps k f_gravity dt self = Ok self' ->
  List.length (trail self') = (List.length (trail self) + k)%nat.
Proof.
  intros Hk. destruct (steps_trail k self self' Hk) as (new & -> & <-).
  apply length_app.
Qed.

(** The trail after [j] steps is the front of the trail after [k >= j]. *)
Lemma steps_trail_firstn (j k : nat) (self sj self' : Pitch A) :
  (j <= k)%nat ->
  steps j f_gravity dt self = Ok sj ->
  steps k f_gravity dt self = Ok self' ->
  trail sj = firstn (List.length (trail self) + j) (trail self').
Proof.
  intros Hjk Hj Hk.
  destruct (steps_prefix j k self self' Hjk Hk) as (sj' & Hj' & Hrest).
  assert (sj' = sj) as -> by congruence.
  destruct (steps_trail _ _ _ Hrest) as (new & -> & _).
  rewrite <- (steps_trail_length _ _ _ Hj).
  rewrite firstn_app, Nat.sub_diag, firstn_all. simpl.
  now rewrite app_nil_r.
Qed.

(** The position reached by the last step is the last entry of the trail. *)
Lemma steps_trail_last (k : nat) (self self' : Pitch A) (d : list A) :
  steps (S k) f_gravity dt self = Ok self' ->
  last (trail self') d = position self'.
Proof.
  rewrite steps_snoc.
  destruct (steps k f_gravity dt self) as [sk|e]; simpl; [|discriminate].
  intros Hstep. rewrite (step_trail _ _ Hstep). apply last_last.
Qed.

End ThrowFacts.

Section ThrowLoop.
Context {A : Type} `{Num A}.
Variables (f_gravity : list A) (distance dt : A).

Import pitches.

(** Whatever the loop returns, it left after some [k <= fuel] steps. *)
Lemma throw_loop_sound (fuel : nat) (self self' : Pitch A) :
  throw_loop fuel f_gravity distance dt self = Some (Ok self') ->
  exists k, (k <= fuel)%nat /\ leaves_after k f_gravity distance dt self self'.
Proof.
  revert self. induction fuel as [|fuel IH]; intros self; simpl.
  - destruct (in_flight self distance) as [[|]|e] eqn:Htest; try discriminate.
    intros [= <-]. exists 0%nat. split; [lia|].
    repeat split; [assumption|]. intros j sj Hj. lia.
  - destruct (in_flight self distance) as [[|]|e] eqn:Htest; try discriminate.
    + destruct (step f_gravity dt self) as [s1|e] eqn:Hstep; [|discriminate].
      intros Hloop. destruct (IH _ Hloop) as (k & Hk & Hsteps & Hstop & Hbefore).
      exists (S k). split; [lia|]. repeat split.
      * simpl. rewrite Hstep. exact Hsteps.
      * exact Hstop.
      * intros [|j] sj Hj; simpl.
        -- intros [= <-]. exact Htest.
        -- rewrite Hstep. simpl. apply Hbefore. lia.
    + intros [= <-]. exists 0%nat. split; [lia|].
      repeat split; [assumption|]. intros j sj Hj. lia.
Qed.

(** A state that leaves the loop after [k] steps is returned with any fuel
    from [k] on. *)
Lemma throw_loop_complete (k : nat) (self self' : Pitch A) :
  leaves_after k f_gravity distance dt self self' ->
  forall fuel, (k <= fuel)%nat ->
  throw_loop fuel f_gravity distance dt self = Some (Ok self').
Proof.
  revert self. induction k as [|k IH]; intros self (Hsteps & Hstop & Hbefore) fuel Hfuel.
  - simpl in Hsteps. injection Hsteps as <-.
    destruct fuel; simpl; rewrite Hstop; reflexivity.
  - destruct fuel as [|fuel]; [lia|]. simpl.
    rewrite (Hbefore 0%nat self) by (reflexivity || lia).
    simpl in Hsteps.
    destruct (step f_gravity dt self) as [s1|e] eqn:Hstep; simpl in Hsteps;
      [|discriminate].
    apply IH; [|lia]. repeat split; [assumption..|].
    intros j sj Hj Hsj. apply (Hbefore (S j)); [lia|].
    simpl. rewrite Hstep. exact Hsj.
Qed.

(** The loop returns at once where its test fails. *)
Lemma throw_loop_at_rest (fuel : nat) (self : Pitch A) :
  in_flight self distance = Ok false ->
  throw_loop fuel f_gravity distance dt self = Some (Ok self).
Proof.
  intros Htest. destruct fuel; simpl; rewrite Htest; reflexivity.
Qed.

End ThrowLoop.

Section WhileTest.
Context {A : Type} `{Num A}.

Import pitches.

(** Beyond the target or on the ground, the test fails. *)
Lemma while_test_stops (x y : A) (rest : list A) (distance : A) :
  geb x distance = true \/ leb y (of_int 0) = true ->
  while_test (x :: y :: rest) distance = Ok false.
Proof.
  unfold while_test, geb, gtb. simpl. intros [Hx|Hy].
  - rewrite (ltb_leb_false _ _ Hx). reflexivity.
  - rewrite (ltb_leb_false _ _ Hy). destruct (ltb x distance); reflexivity.
Qed.

End WhileTest.

Section TrailEntries.
Context {A : Type} `{Num A}.
Variables (f_gravity : list A) (dt : A).

Import pitches.

(** The [j]-th position appended by a run stays where it was put. *)
Lemma steps_trail_nth (j k : nat) (self sj self' : Pitch A) :
  (S j <= k)%nat ->
  steps k f_gravity dt self = Ok self' ->
  steps (S j) f_gravity dt self = Ok sj ->
  nth_error (trail self') (List.length (trail self) + j) = Some (position sj).
Proof.
  intros Hjk Hk Hj.
  destruct (steps_prefix f_gravity dt (S j) k self self' Hjk Hk)
    as (sj' & Hj' & Hrest).
  assert (sj' = sj) as -> by congruence.
  destruct (steps_trail f_gravity dt _ _ _ Hrest) as (rest & -> & _).
  rewrite steps_snoc in Hj.
  destruct (steps j f_gravity dt self) as [s0|e] eqn:H0; simpl in Hj;
    [|discriminate].
  rewrite (step_trail f_gravity dt _ _ Hj).
  rewrite <- (steps_trail_length f_gravity dt _ _ _ H0).
  rewrite <- app_assoc. rewrite nth_error_app2 by lia.
  rewrite Nat.sub_diag. reflexivity.
Qed.

End TrailEntries.

(** C6.  A Pitch constructed beyond the target distance, or on or under the
    ground, is returned by [throw] as it is, with no fuel at all: no step
    is taken and its trail is the release point alone. *)
Theorem throw_takes_no_step_when_already_there
    (A : Type) (N : Num A) (x y : A) (rest v s : list A) (l c : string)
    (distance dt : A) (fuel : nat) :
  geb x distance = true \/ leb y (of_int 0) = true ->
  let self := pitches.__init__ (x :: y :: rest) v s l c in
  pitches.throw fuel self distance dt = Some (Ok self) /\
  pitches.leaves_after 0 (forces.calculate_gravity (pitches.mass self))
                       distance dt self self /\
  pitches.trail self = [x :: y :: rest].
Proof.
  intros Hthere self.
  assert (Htest : pitches.in_flight self distance = Ok false)
    by (apply while_test_stops; exact Hthere).
  split; [|split].
  - unfold pitches.throw. apply throw_loop_at_rest. exact Htest.
  - repeat split; [exact Htest|]. intros j sj Hj. lia.
  - reflexivity.
Qed.

Lemma throw_takes_no_step_when_already_there_witness :
  pitches.throw 0 Runs.far_ball 18%float 0.001%float = Some (Ok Runs.far_ball) /\
  pitches.leaves_after 0 (forces.calculate_gravity (pitches.mass Runs.far_ball))
                       18%float 0.001%float Runs.far_ball Runs.far_ball /\
  pitches.trail Runs.far_ball = [[20; 1; 0]%float].
Proof.
  apply (throw_takes_no_step_when_already_there float float_Num
           20%float 1%float [0%float] [10; 0; 0]%float [0; 0; 0]%float
           "Custom Pitch"%string "gray"%string 18%float 0.001%float 0).
  left. reflexivity.
Defined.

(** C7.  The trail is the release point after construction; one run of the
    body appends the new position and nothing else; a throw of a new Pitch
    that takes [k] steps leaves [k + 1] entries, the release point first,
    and the trail after any [j <= k] of the steps is the first [j + 1]
    entries of the final one; a throw of any Pitch, thrown before or not,
    only appends to the trail it finds. *)
Theorem trail_is_append_only (A : Type) (N : Num A) :
  (forall (p v s : list A) (l c : string),
      pitches.trail (pitches.__init__ p v s l c) = [p]) /\
  (forall (f_gravity : list A) (dt : A) (self self' : pitches.Pitch A),
      pitches.step f_gravity dt self = Ok self' ->
      pitches.trail self' = pitches.trail self ++ [pitches.position self']) /\
  (forall (p v s : list A) (l c : string) (distance dt : A) (fuel : nat)
          (self' : pitches.Pitch A),
      let self := pitches.__init__ p v s l c in
      let f_gravity := forces.calculate_gravity (pitches.mass self) in
      pitches.throw fuel self distance dt = Some (Ok self') ->
      exists k : nat,
        (k <= fuel)%nat /\
        pitches.steps k f_gravity dt self = Ok self' /\
        List.length (pitches.trail self') = (k + 1)%nat /\
        nth_error (pitches.trail self') 0 = Some p /\
        forall (j : nat) (sj : pitches.Pitch A),
          (j <= k)%nat ->
          pitches.steps j f_gravity dt self = Ok sj ->
          pitches.trail sj = firstn (j + 1) (pitches.trail self')) /\
  (forall (self self' : pitches.Pitch A) (distance dt : A) (fuel : nat),
      pitches.throw fuel self distance dt = Some (Ok self') ->
      exists new : list (list A),
        pitches.trail self' = pitches.trail self ++ new).
Proof.
  split; [reflexivity|]. split; [apply step_trail|]. split; cycle 1.
  { intros self self' distance dt fuel Hthrow.
    destruct (throw_loop_sound _ _ _ _ _ _ Hthrow) as (k & _ & Hsteps & _).
    destruct (steps_trail _ _ _ _ _ Hsteps) as (new & Hnew & _).
    exists new. exact Hnew. }
  intros p v s l c distance dt fuel self' self f_gravity Hthrow.
  destruct (throw_loop_sound _ _ _ _ _ _ Hthrow) as (k & Hk & Hsteps & _ & _).
  exists k. split; [exact Hk|]. split; [exact Hsteps|].
  pose proof (steps_trail f_gravity dt _ _ _ Hsteps) as (new & Hnew & Hlen).
  repeat split.
  - rewrite Hnew, length_app, Hlen. simpl. lia.
  - rewrite Hnew. reflexivity.
  - intros j sj Hj Hsj.
    rewrite (steps_trail_firstn f_gravity dt j k self sj self' Hj Hsj Hsteps).
    replace (List.length (pitches.trail self) + j)%nat with (j + 1)%nat
      by (simpl; lia).
    reflexivity.
Qed.

Lemma trail_is_append_only_witness :
  exists k : nat,
    (k <= 3)%nat /\
    pitches.steps k (forces.calculate_gravity (pitches.mass Runs.slow_ball))
                  0.125%float Runs.slow_ball
    = Ok Runs.slow_ball_thrown_short /\
    List.length (pitches.trail Runs.slow_ball_thrown_short) = (k + 1)%nat /\
    nth_error (pitches.trail Runs.slow_ball_thrown_short) 0
    = Some [0; 1; 0]%float /\
    forall (j : nat) (sj : pitches.Pitch float),
      (j <= k)%nat ->
      pitches.steps j (forces.calculate_gravity (pitches.mass Runs.slow_ball))
                    0.125%float Runs.slow_ball = Ok sj ->
      pitches.trail sj = firstn (j + 1) (pitches.trail Runs.slow_ball_thrown_short).
Proof.
  apply (proj1 (proj2 (proj2 (trail_is_append_only float float_Num)))
           [0; 1; 0]%float [10; 0; 0]%float [0; 0; 0]%float
           "Custom Pitch"%string "gray"%string 3%float 0.125%float 3 Runs.slow_ball_thrown_short).
  vm_compute. reflexivity.
Defined.

(** C10.  [throw] assigns [position], [velocity] and [trail] only: mass,
    area, radius, drag coefficient, spin, label and color (and the two
    default vectors of the class) are, on return, what they were. *)
Theorem throw_changes_position_velocity_trail_only
    (A : Type) (N : Num A) (self self' : pitches.Pitch A)
    (distance dt : A) (fuel : nat) :
  pitches.throw fuel self distance dt = Some (Ok self') ->
  pitches.mass self' = pitches.mass self /\
  pitches.drag_coefficient self' = pitches.drag_coefficient self /\
  pitches.radius self' = pitches.radius self /\
  pitches.area self' = pitches.area self /\
  pitches.default_position self' = pitches.default_position self /\
  pitches.default_velocity self' = pitches.default_velocity self /\
  pitches.label self' = pitches.label self /\
  pitches.color self' = pitches.color self /\
  pitches.spin self' = pitches.spin self.
Proof.
  intros Hthrow.
  destruct (throw_loop_sound _ _ _ _ _ _ Hthrow) as (k & _ & Hsteps & _).
  exact (steps_frame _ _ _ _ _ Hsteps).
Qed.

Lemma throw_changes_position_velocity_trail_only_witness :
  let self := pitches.Knuckleball "deeppink"%string in
  let self' := Runs.knuckleball_thrown in
  pitches.mass self' = pitches.mass self /\
  pitches.drag_coefficient self' = pitches.drag_coefficient self /\
  pitches.radius self' = pitches.radius self /\
  pitches.area self' = pitches.area self /\
  pitches.default_position self' = pitches.default_position self /\
  pitches.default_velocity self' = pitches.default_velocity self /\
  pitches.label self' = pitches.label self /\
  pitches.color self' = pitches.color self /\
  pitches.spin self' = pitches.spin self.
Proof.
  apply (throw_changes_position_velocity_trail_only float float_Num
           (pitches.Knuckleball "deeppink"%string) Runs.knuckleball_thrown
           (of_int 18) (lit 1 3) 1000).
  vm_compute. reflexivity.
Defined.

(** C2, as stated, fails on the code: the step that ends the throw is
    taken and recorded.  [slow_ball.throw(5.0, 1.0)], with dt = 1.0 > 0,
    takes the step from x = 0 to x = 10 and appends [10, 1, 0]: the final
    recorded position is the one at which [position[0] < distance] fails,
    not the last at which the test held. *)
Lemma throw_records_the_position_that_stops_it :
  PrimFloat.ltb 0 1 = true /\
  pitches.throw 1 Runs.slow_ball 5%float 1%float = Some (Ok Runs.slow_ball_thrown) /\
  pitches.steps 1 (forces.calculate_gravity (pitches.mass Runs.slow_ball))
                1%float Runs.slow_ball = Ok Runs.slow_ball_thrown /\
  pitches.trail Runs.slow_ball_thrown = [[0; 1; 0]; [10; 1; 0]]%float /\
  pitches.while_test (last (pitches.trail Runs.slow_ball_thrown) []) 5%float
  = Ok false.
Proof.
  repeat split; vm_compute; reflexivity.
Qed.

(** C2, amended.  [throw] returns [self'] exactly when [self'] is the first
    state, after some [k] runs of the body, at which the test of the loop
    fails, the test being made before each run; it fails as soon as
    [position[0] >= distance] or [position[1] <= 0].  The body, and with it
    the computation of the forces, runs [k] times and not once more.  When
    a step was taken, the last position of the trail is the final one, at
    which the test fails, and the test holds of every position that the
    throw appended before it. *)
Theorem throw_stops_at_the_first_failed_test
    (A : Type) (N : Num A) (self self' : pitches.Pitch A)
    (distance dt : A) (fuel : nat) :
  let f_gravity := forces.calculate_gravity (pitches.mass self) in
  (pitches.throw fuel self distance dt = Some (Ok self') <->
   exists k : nat,
     (k <= fuel)%nat /\
     pitches.leaves_after k f_gravity distance dt self self') /\
  (forall (x y : A) (rest : list A),
      geb x distance = true \/ leb y (of_int 0) = true ->
      pitches.while_test (x :: y :: rest) distance = Ok false) /\
  (pitches.throw fuel self distance dt = Some (Ok self') ->
   (List.length (pitches.trail self) < List.length (pitches.trail self'))%nat ->
   pitches.while_test (last (pitches.trail self') []) distance = Ok false) /\
  (pitches.throw fuel self distance dt = Some (Ok self') ->
   forall i : nat,
     (List.length (pitches.trail self) <= i)%nat ->
     (S i < List.length (pitches.trail self'))%nat ->
     exists pos : list A,
       nth_error (pitches.trail self') i = Some pos /\
       pitches.while_test pos distance = Ok true).
Proof.
  intros f_gravity. split; [|split; [|split]].
  - split.
    + apply throw_loop_sound.
    + intros (k & Hk & Hleaves).
      exact (throw_loop_complete _ _ _ k _ _ Hleaves fuel Hk).
  - intros x y rest. apply while_test_stops.
  - intros Hthrow Hlen.
    destruct (throw_loop_sound _ _ _ _ _ _ Hthrow) as (k & _ & Hsteps & Hstop & _).
    pose proof (steps_trail_length _ _ _ _ _ Hsteps) as Hk.
    destruct k as [|k]; [lia|].
    rewrite (steps_trail_last _ _ _ _ _ [] Hsteps). exact Hstop.
  - intros Hthrow i Hlo Hhi.
    destruct (throw_loop_sound _ _ _ _ _ _ Hthrow)
      as (k & _ & Hsteps & _ & Hbefore).
    pose proof (steps_trail_length _ _ _ _ _ Hsteps) as Hk.
    set (j := (i - List.length (pitches.trail self))%nat).
    assert (Hjk : (S j <= k)%nat) by lia.
    destruct (steps_prefix _ _ (S j) k _ _ Hjk Hsteps) as (sj & Hsj & _).
    exists (pitches.position sj). split.
    + replace i with (List.length (pitches.trail self) + j)%nat by lia.
      exact (steps_trail_nth _ _ j k _ _ _ Hjk Hsteps Hsj).
    + apply (Hbefore (S j) sj); [lia|exact Hsj].
Qed.

Lemma throw_stops_at_the_first_failed_test_witness :
  pitches.while_test (last (pitches.trail Runs.slow_ball_thrown_short) []) 3%float
  = Ok false.
Proof.
  apply (proj1 (proj2 (proj2
           (throw_stops_at_the_first_failed_test float float_Num
              Runs.slow_ball Runs.slow_ball_thrown_short 3%float 0.125%float 3)))).
  - vm_compute. reflexivity.
  - vm_compute. lia.
Defined.

(** C4, as stated, fails on the code: nothing is validated.  A target
    distance and a dt of 0, or of -1, are accepted and [throw] returns with
    no error; a Pitch whose position has two components beside a velocity
    and a spin of three is constructed, thrown and integrated. *)
Lemma throw_accepts_invalid_parameters :
  pitches.throw 0 Runs.slow_ball 0%float 0%float = Some (Ok Runs.slow_ball) /\
  pitches.throw 0 Runs.slow_ball (-1)%float (-1)%float = Some (Ok Runs.slow_ball) /\
  List.length (pitches.position Runs.flat_ball) = 2%nat /\
  List.length (pitches.velocity Runs.flat_ball) = 3%nat /\
  exists self' : pitches.Pitch float,
    pitches.throw 1 Runs.flat_ball 5%float 1%float = Some (Ok self') /\
    pitches.trail self' = [[0; 1]; [10; 1]]%float.
Proof.
  repeat split; try (vm_compute; reflexivity).
  eexists. split; vm_compute; reflexivity.
Qed.

(** A dt of 0 is not refused either: the ball stays where it is, and the
    loop of [slow_ball.throw(18.0, 0.0)] never ends. *)
Lemma step_with_dt_zero (t : list (list float)) :
  pitches.step (forces.calculate_gravity (pitches.mass Runs.slow_ball)) 0%float
               (Runs.slow_ball_with_trail t)
  = Ok (Runs.slow_ball_with_trail (t ++ [[0; 1; 0]%float])).
Proof. vm_compute. reflexivity. Qed.

Lemma throw_with_dt_zero_never_returns (fuel : nat) :
  pitches.throw fuel Runs.slow_ball 18%float 0%float = None.
Proof.
  unfold pitches.throw.
  change Runs.slow_ball with (Runs.slow_ball_with_trail [[0; 1; 0]%float]) at 2.
  generalize [[0; 1; 0]%float] as t.
  induction fuel as [|fuel IH]; intros t.
  - reflexivity.
  - cbn [pitches.throw_loop].
    change (pitches.in_flight (Runs.slow_ball_with_trail t) 18%float)
      with (Ok (T:=bool) true).
    cbv iota. rewrite step_with_dt_zero. apply IH.
Qed.

(** ** The force model in exact arithmetic *)

Module RealForces.

Local Open Scope R_scope.

Lemma dot_fold_shift (l : list (R * R)) (acc : R) :
  fold_left (fun acc ab => acc + fst ab * snd ab) l acc
  = acc + fold_left (fun acc ab => acc + fst ab * snd ab) l 0.
Proof.
  revert acc. induction l as [|ab l IH]; intros acc; simpl.
  - lra.
  - rewrite IH, (IH (0 + _)). lra.
Qed.

Lemma dot_nil_l (b : list R) : forces.dot [] b = 0.
Proof. reflexivity. Qed.

Lemma dot_nil_r (a : list R) : forces.dot a [] = 0.
Proof. destruct a; reflexivity. Qed.

Lemma dot_cons (x y : R) (a b : list R) :
  forces.dot (x :: a) (y :: b) = x * y + forces.dot a b.
Proof.
  unfold forces.dot. simpl. rewrite dot_fold_shift. lra.
Qed.

Lemma dot_self_nonneg (v : list R) : 0 <= forces.dot v v.
Proof.
  induction v as [|x v IH].
  - rewrite dot_nil_l. lra.
  - rewrite dot_cons. nra.
Qed.

Lemma dot_self_pos (v : list R) :
  Exists (fun x => x <> 0) v -> 0 < forces.dot v v.
Proof.
  induction 1 as [x v Hx|x v _ IH]; rewrite dot_cons.
  - pose proof (dot_self_nonneg v). nra.
  - nra.
Qed.

(** Scaling one side of a dot product by [k/m], the way [calculate_drag]
    scales the velocity. *)
Lemma dot_scaled_l (k m : R) (v w : list R) :
  forces.dot (map (fun x => k * (x / m)) v) w = k / m * forces.dot v w.
Proof.
  revert w. induction v as [|x v IH]; intros [|y w]; simpl map;
    rewrite ?dot_nil_l, ?dot_nil_r, ?dot_cons; try lra.
  rewrite IH. unfold Rdiv. ring.
Qed.

Lemma dot_scaled_r (k m : R) (v w : list R) :
  forces.dot v (map (fun x => k * (x / m)) w) = k / m * forces.dot v w.
Proof.
  revert w. induction v as [|x v IH]; intros [|y w]; simpl map;
    rewrite ?dot_nil_l, ?dot_nil_r, ?dot_cons; try lra.
  rewrite IH. unfold Rdiv. ring.
Qed.

(** The drag of the program, with its two [map]s made one. *)
Lemma calculate_drag_unfold (v : list R) (area c : R) :
  forces.calculate_drag v area c
  = map (fun x => (-0.5 * c * area * 1.2 * (forces.magnitude v * forces.magnitude v))
                  * (x / forces.magnitude v)) v.
Proof.
  unfold forces.calculate_drag, forces.magnitude, forces.air_density.
  rewrite map_map. apply map_ext. intros x. simpl. unfold Real.lit. simpl.
  f_equal. f_equal. lra.
Qed.

Lemma magnitude_pos (v : list R) : 0 < forces.dot v v -> 0 < forces.magnitude v.
Proof. apply sqrt_lt_R0. Qed.

Lemma magnitude_sqr (v : list R) :
  forces.magnitude v * forces.magnitude v = forces.dot v v.
Proof. apply sqrt_sqrt, dot_self_nonneg. Qed.

Lemma magnitude_pos_inv (v : list R) : 0 < forces.magnitude v -> 0 < forces.dot v v.
Proof.
  intros Hm. destruct (Rle_or_lt (forces.dot v v) 0) as [Hle|Hlt]; [|exact Hlt].
  unfold forces.magnitude in Hm. simpl in Hm.
  rewrite (sqrt_neg_0 _ Hle) in Hm. lra.
Qed.

Lemma scale_simpl (k m : R) : m <> 0 -> k * (m * m) / m = k * m.
Proof. intros Hm. field. exact Hm. Qed.

Lemma drag_dot_velocity (v : list R) (area c : R) :
  0 < forces.dot v v -> 0 < area -> 0 < c ->
  forces.dot (forces.calculate_drag v area c) v < 0.
Proof.
  intros Hv Ha Hc.
  pose proof (magnitude_pos v Hv) as Hm.
  pose proof (magnitude_sqr v) as Hsq.
  rewrite calculate_drag_unfold, dot_scaled_l, <- Hsq.
  set (m := forces.magnitude v) in *.
  rewrite scale_simpl by lra.
  assert (Hca : 0 < c * area) by nra.
  assert (Hm3 : 0 < m * (m * m)) by (apply Rmult_lt_0_compat; nra).
  pose proof (Rmult_lt_0_compat _ _ Hca Hm3). lra.
Qed.

Lemma drag_magnitude (v : list R) (area c : R) :
  0 < forces.dot v v -> 0 < area -> 0 < c ->
  forces.magnitude (forces.calculate_drag v area c)
  = 0.5 * c * area * forces.air_density
    * (forces.magnitude v * forces.magnitude v).
Proof.
  intros Hv Ha Hc.
  pose proof (magnitude_pos v Hv) as Hm.
  pose proof (magnitude_sqr v) as Hsq.
  unfold forces.magnitude at 1.
  rewrite calculate_drag_unfold, dot_scaled_l, dot_scaled_r, <- Hsq.
  set (m := forces.magnitude v) in *.
  assert (0 < c * area) by nra.
  assert (Hk : 0 <= 0.6 * (c * area) * (m * m)) by nra.
  rewrite !scale_simpl by lra.
  replace (-0.5 * c * area * 1.2 * m * (-0.5 * c * area * 1.2 * m * (m * m)))
    with ((0.6 * (c * area) * (m * m)) * (0.6 * (c * area) * (m * m)))
    by lra.
  change (sqrt ?x) with (R_sqrt.sqrt x).
  rewrite (sqrt_square _ Hk).
  unfold forces.air_density. simpl. unfold Real.lit. simpl. lra.
Qed.

(** The drag is the velocity turned round and stretched. *)
Lemma drag_antiparallel (v : list R) (area c : R) :
  0 < forces.dot v v -> 0 < area -> 0 < c ->
  exists k : R,
    0 < k /\ forces.calculate_drag v area c = map (fun x => - k * x) v.
Proof.
  intros Hv Ha Hc.
  pose proof (magnitude_pos v Hv) as Hm.
  exists (0.6 * (c * area) * forces.magnitude v). split.
  - assert (0 < c * area) by nra.
    apply Rmult_lt_0_compat; [lra|assumption].
  - rewrite calculate_drag_unfold. apply map_ext. intros x.
    set (m := forces.magnitude v) in *.
    replace (-0.5 * c * area * 1.2 * (m * m) * (x / m))
      with (-0.5 * c * area * 1.2 * x * (m * m) / m) by (unfold Rdiv; ring).
    rewrite scale_simpl by lra. lra.
Qed.

End RealForces.

(** *** Exchanging the operands of the cross product, on binary64 floats *)

Module FloatLaws.

Local Open Scope float_scope.

Lemma binary_round_aux_opp (sx : bool) (m e : Z) (l : location) :
  SFopp (binary_round_aux prec emax sx m e l)
  = binary_round_aux prec emax (negb sx) m e l.
Proof.
  unfold binary_round_aux.
  destruct (shr_fexp prec emax m e l) as [mrs' e'].
  destruct (shr_fexp prec emax _ e' loc_Exact) as [mrs'' e''].
  destruct (shr_m mrs''); try reflexivity.
  destruct (Z.leb e'' _); reflexivity.
Qed.

Lemma binary_round_opp (sx : bool) (m : positive) (e : Z) :
  SFopp (binary_round prec emax sx m e) = binary_round prec emax (negb sx) m e.
Proof.
  unfold binary_round. destruct (shl_align m e _) as [mz ez].
  apply binary_round_aux_opp.
Qed.

Lemma binary_normalize_opp (m e : Z) :
  m <> 0%Z ->
  SFopp (binary_normalize prec emax (- m) e false)
  = binary_normalize prec emax m e false.
Proof.
  destruct m as [|p|p]; simpl; intros Hm.
  - congruence.
  - apply binary_round_opp.
  - apply binary_round_opp.
Qed.

Lemma SFeqb_refl (x : spec_float) : x <> S754_nan -> SFeqb x x = true.
Proof.
  unfold SFeqb. destruct x as [s|s| |s m e]; simpl; intros Hx.
  - reflexivity.
  - destruct s; reflexivity.
  - congruence.
  - rewrite Z.compare_refl, Pos.compare_cont_refl. destruct s; reflexivity.
Qed.

(** [p - q] and [-(q - p)] round the same way: they are [==], or both
    subtractions give not-a-number. *)
Lemma SFsub_antisym (p q : spec_float) :
  SFeqb (SFsub prec emax p q) (SFopp (SFsub prec emax q p)) = true \/
  (SFsub prec emax p q = S754_nan /\ SFsub prec emax q p = S754_nan).
Proof.
  destruct p as [sp|sp| |sp mp ep], q as [sq|sq| |sq mq eq]; simpl;
    try (right; split; reflexivity);
    try (destruct sp; simpl; try destruct sq; simpl;
         solve [ left; reflexivity | right; split; reflexivity ]);
    try (destruct sq; simpl; solve [ left; reflexivity ]).
  all: try (left; apply SFeqb_refl; discriminate).
  - left. rewrite negb_involutive. apply SFeqb_refl. discriminate.
  - rewrite (Z.min_comm eq ep).
    set (ez := Z.min ep eq).
    set (a := cond_Zopp sp _). set (b := cond_Zopp sq _).
    replace (b - a)%Z with (- (a - b))%Z by lia.
    destruct (Z.eq_dec (a - b) 0) as [->|Hne].
    + left. reflexivity.
    + rewrite (binary_normalize_opp _ _ Hne).
      destruct (binary_normalize prec emax (a - b) ez false) eqn:E.
      * left; apply SFeqb_refl; discriminate.
      * left; apply SFeqb_refl; discriminate.
      * right. split; [reflexivity|].
        rewrite <- (binary_normalize_opp _ _ Hne) in E.
        destruct (binary_normalize prec emax (- (a - b)) ez false);
          simpl in E; try discriminate. reflexivity.
      * left; apply SFeqb_refl; discriminate.
Qed.

Lemma SFmul_comm (x y : spec_float) :
  SFmul prec emax x y = SFmul prec emax y x.
Proof.
  destruct x as [sx|sx| |sx mx ex], y as [sy|sy| |sy my ey]; simpl;
    rewrite ?(xorb_comm sx sy); try reflexivity.
  rewrite (Pos.mul_comm mx my), (Z.add_comm ex ey). reflexivity.
Qed.

Lemma float_mul_comm (x y : float) : x * y = y * x.
Proof.
  apply Prim2SF_inj. rewrite !mul_spec. apply SFmul_comm.
Qed.

Lemma float_sub_antisym (p q : float) :
  (p - q =? - (q - p)) = true \/ (p - q = nan /\ q - p = nan).
Proof.
  rewrite eqb_spec, opp_spec, !sub_spec.
  destruct (SFsub_antisym (Prim2SF p) (Prim2SF q)) as [Heq|[Hx Hy]].
  - left. exact Heq.
  - right. split; apply Prim2SF_inj; rewrite sub_spec; assumption.
Qed.

(** One component of the cross product against the same component with
    the operands exchanged. *)
Lemma cross_component_antisym (a b c d : float) :
  (a * b - c * d =? - (d * c - b * a)) = true \/
  (a * b - c * d = nan /\ d * c - b * a = nan).
Proof.
  rewrite (float_mul_comm d c), (float_mul_comm b a).
  apply float_sub_antisym.
Qed.

End FloatLaws.

(** *** Negating a factor of a product *)

Lemma SFmul_opp_l (x y : spec_float) :
  SFmul prec emax (SFopp x) y = SFopp (SFmul prec emax x y).
Proof.
  destruct x as [sx|sx| |sx mx ex], y as [sy|sy| |sy my ey]; simpl;
    try reflexivity; try (rewrite negb_xorb_l; reflexivity).
  rewrite FloatLaws.binary_round_aux_opp, negb_xorb_l. reflexivity.
Qed.

Lemma float_mul_opp_l (x y : float) :
  PrimFloat.mul (PrimFloat.opp x) y = PrimFloat.opp (PrimFloat.mul x y).
Proof.
  apply Prim2SF_inj. rewrite opp_spec, !mul_spec, opp_spec.
  apply SFmul_opp_l.
Qed.

(** ** Signs and not-a-numbers of binary64 arithmetic *)

Module FloatShapes.

Local Open Scope float_scope.

(** A float that is a number with the sign bit [s]: a zero, a finite number
    or an infinity. *)
Definition signed (s : bool) (x : spec_float) : Prop :=
  x = S754_zero s \/ (exists m e, x = S754_finite s m e) \/ x = S754_infinity s.

(** A zero or a finite number with the sign bit [s]. *)
Definition bounded_signed (s : bool) (x : spec_float) : Prop :=
  x = S754_zero s \/ exists m e, x = S754_finite s m e.

Lemma shr_1_nonneg (mrs : shr_record) :
  (0 <= shr_m mrs)%Z -> (0 <= shr_m (shr_1 mrs))%Z.
Proof.
  destruct mrs as [m r s]. simpl.
  destruct m as [|[p|p|]|[p|p|]]; simpl; lia.
Qed.

Lemma iter_pos_nonneg (p : positive) (mrs : shr_record) :
  (0 <= shr_m mrs)%Z -> (0 <= shr_m (SpecFloat.iter_pos shr_1 p mrs))%Z.
Proof.
  revert mrs. induction p as [p IH|p IH|]; intros mrs Hm; simpl.
  - apply IH, IH, shr_1_nonneg, Hm.
  - apply IH, IH, Hm.
  - apply shr_1_nonneg, Hm.
Qed.

Lemma shr_fexp_nonneg (m e : Z) (l : location) :
  (0 <= m)%Z -> (0 <= shr_m (fst (shr_fexp prec emax m e l)))%Z.
Proof.
  intros Hm. unfold shr_fexp, shr.
  assert (H0 : (0 <= shr_m (shr_record_of_loc m l))%Z)
    by (destruct l as [|[ | | ]]; exact Hm).
  destruct (_ - e)%Z; simpl; try exact H0.
  apply iter_pos_nonneg, H0.
Qed.

Lemma round_nearest_even_nonneg (m : Z) (l : location) :
  (0 <= m)%Z -> (0 <= round_nearest_even m l)%Z.
Proof.
  intros Hm. destruct l as [|[ | | ]]; simpl; try lia.
  destruct (Z.even m); lia.
Qed.

(** Rounding a mantissa that is not negative gives a number with the
    sign it was given, never a not-a-number. *)
Lemma binary_round_aux_signed (s : bool) (m e : Z) (l : location) :
  (0 <= m)%Z -> signed s (binary_round_aux prec emax s m e l).
Proof.
  intros Hm. unfold binary_round_aux.
  pose proof (shr_fexp_nonneg m e l Hm) as H1.
  destruct (shr_fexp prec emax m e l) as [mrs' e']. simpl in H1.
  pose proof (shr_fexp_nonneg _ e' loc_Exact
                (round_nearest_even_nonneg _ (loc_of_shr_record mrs') H1)) as H2.
  destruct (shr_fexp prec emax _ e' loc_Exact) as [mrs'' e'']. simpl in H2.
  destruct (shr_m mrs'') as [|p|p].
  - left. reflexivity.
  - destruct (Z.leb e'' _).
    + right. left. eexists. eexists. reflexivity.
    + right. right. reflexivity.
  - lia.
Qed.

Lemma binary_round_signed (s : bool) (m : positive) (e : Z) :
  signed s (binary_round prec emax s m e).
Proof.
  unfold binary_round. destruct (shl_align m e _) as [mz ez].
  apply binary_round_aux_signed. lia.
Qed.

Lemma signed_not_nan (s : bool) (x : spec_float) : signed s x -> x <> S754_nan.
Proof.
  intros [->|[(m & e & ->)| ->]]; discriminate.
Qed.

(** A finite number that is not zero, times a number. *)
Lemma SFmul_signed (sx : bool) (mx : positive) (ex : Z) (sy : bool)
    (y : spec_float) :
  signed sy y ->
  signed (xorb sx sy) (SFmul prec emax (S754_finite sx mx ex) y).
Proof.
  intros [->|[(m & e & ->)| ->]]; simpl.
  - left. reflexivity.
  - apply binary_round_aux_signed. lia.
  - right. right. reflexivity.
Qed.

(** ... and a zero stays a zero. *)
Lemma SFmul_zero_r (sx : bool) (mx : positive) (ex : Z) (sy : bool) :
  SFmul prec emax (S754_finite sx mx ex) (S754_zero sy) = S754_zero (xorb sx sy).
Proof. reflexivity. Qed.

(** A number times a zero or a finite number, where a zero on the right
    meets no infinity on the left. *)
Lemma SFmul_signed_bounded (sx sy : bool) (x y : spec_float) :
  signed sx x -> bounded_signed sy y ->
  (y = S754_zero sy -> bounded_signed sx x) ->
  signed (xorb sx sy) (SFmul prec emax x y).
Proof.
  intros [->|[(m & e & ->)| ->]] [->|(m' & e' & ->)] Hzero; simpl;
    try (left; reflexivity);
    try (apply binary_round_aux_signed; lia);
    try (right; right; reflexivity).
  destruct (Hzero eq_refl) as [H|(m & e & H)]; discriminate.
Qed.

Lemma div_eucl_nonneg (a : Z) (b : positive) :
  (0 <= a)%Z -> (0 <= fst (Z.div_eucl a (Zpos b)))%Z.
Proof.
  intros Ha. pose proof (Z.div_pos a (Zpos b) Ha ltac:(lia)) as H.
  unfold Z.div in H. destruct (Z.div_eucl a (Zpos b)). exact H.
Qed.

(** A zero or a finite number divided by a finite number that is not
    zero. *)
Lemma SFdiv_signed (sx : bool) (x : spec_float) (sy : bool) (my : positive)
    (ey : Z) :
  bounded_signed sx x ->
  signed (xorb sx sy) (SFdiv prec emax x (S754_finite sy my ey)) /\
  (x = S754_zero sx ->
   SFdiv prec emax x (S754_finite sy my ey) = S754_zero (xorb sx sy)).
Proof.
  intros [->|(m & e & ->)]; simpl.
  - split; [left|]; reflexivity.
  - split; [|discriminate].
    unfold SFdiv_core_binary.
    set (e' := Z.min _ _). set (s := (e - ey - e')%Z).
    set (m' := match s with Z0 => Zpos m | Zpos _ => Z.shiftl (Zpos m) s
                         | Zneg _ => 0%Z end).
    assert (Hm' : (0 <= m')%Z).
    { unfold m'. destruct s; try lia. apply Z.shiftl_nonneg. lia. }
    pose proof (div_eucl_nonneg m' my Hm') as Hq.
    destruct (Z.div_eucl m' (Zpos my)) as [q r]. simpl in Hq.
    apply binary_round_aux_signed. exact Hq.
Qed.

End FloatShapes.

(** ** The drag on binary64 floats *)

Module FloatDrag.

Import FloatShapes.
Local Open Scope float_scope.

(** A float that is neither an infinity nor a not-a-number. *)
Definition finite (x : float) : Prop := (abs x <? infinity) = true.

Lemma finite_bounded (x : float) :
  finite x -> exists s, bounded_signed s (Prim2SF x).
Proof.
  unfold finite. rewrite ltb_spec, abs_spec.
  destruct (Prim2SF x) as [s|s| |s m e]; simpl; intros Hx; try discriminate.
  - exists s. left. reflexivity.
  - exists s. right. eexists. eexists. reflexivity.
Qed.

Lemma bounded_finite (x : float) (s : bool) :
  bounded_signed s (Prim2SF x) -> finite x.
Proof.
  unfold finite. rewrite ltb_spec, abs_spec.
  intros [-> | (m & e & ->)]; reflexivity.
Qed.

(** A float strictly between zero and infinity. *)
Lemma positive_finite (x : float) :
  (0 <? x) = true -> (x <? infinity) = true ->
  exists m e, Prim2SF x = S754_finite false m e.
Proof.
  rewrite !ltb_spec.
  change (Prim2SF 0) with (S754_zero false).
  change (Prim2SF infinity) with (S754_infinity false).
  destruct (Prim2SF x) as [s|s| |s m e]; simpl; try discriminate.
  - destruct s; discriminate.
  - destruct s; try discriminate. intros _ _. eexists. eexists. reflexivity.
Qed.

Lemma above_zero (x : float) (s : bool) :
  bounded_signed s (Prim2SF x) -> (0 <? x) = true ->
  s = false /\ exists m e, Prim2SF x = S754_finite false m e.
Proof.
  rewrite ltb_spec. change (Prim2SF 0) with (S754_zero false).
  intros [-> | (m & e & ->)]; simpl; try discriminate.
  destruct s; try discriminate. intros _. split; [reflexivity|].
  eexists. eexists. reflexivity.
Qed.

Lemma below_zero (x : float) (s : bool) :
  bounded_signed s (Prim2SF x) -> (x <? 0) = true ->
  s = true /\ exists m e, Prim2SF x = S754_finite true m e.
Proof.
  rewrite ltb_spec. change (Prim2SF 0) with (S754_zero false).
  intros [-> | (m & e & ->)]; simpl; try discriminate.
  destruct s; try discriminate. intros _. split; [reflexivity|].
  eexists. eexists. reflexivity.
Qed.

Lemma equal_zero (x : float) (s : bool) :
  bounded_signed s (Prim2SF x) -> (x =? 0) = true -> Prim2SF x = S754_zero s.
Proof.
  rewrite eqb_spec. change (Prim2SF 0) with (S754_zero false).
  intros [-> | (m & e & ->)]; simpl; try reflexivity.
  destruct s; discriminate.
Qed.

Lemma signed_eqb_refl (x : float) (s : bool) :
  signed s (Prim2SF x) -> (x =? x) = true.
Proof.
  intros Hx. rewrite eqb_spec. apply FloatLaws.SFeqb_refl.
  exact (signed_not_nan s _ Hx).
Qed.

Lemma signed_true_leb_zero (x : spec_float) :
  signed true x -> SFleb x (S754_zero false) = true.
Proof. intros [->|[(m & e & ->)| ->]]; reflexivity. Qed.

Lemma signed_false_geb_zero (x : spec_float) :
  signed false x -> SFleb (S754_zero false) x = true.
Proof. intros [->|[(m & e & ->)| ->]]; reflexivity. Qed.

(** The factor of the drag, as the program multiplies it out, is the
    negated product of the same numbers with [0.5] in front. *)
Lemma drag_factor (c area sq : float) :
  mul (mul (mul (mul (lit (-5) 1) c) area) forces.air_density) sq
  = - (0.5 * c * area * forces.air_density * sq).
Proof.
  change (lit (-5) 1) with (PrimFloat.opp 0.5).
  change (@mul float float_Num) with PrimFloat.mul.
  rewrite !float_mul_opp_l. reflexivity.
Qed.

(** One component [-M * (x / m)] of a drag: a number, on the other side
    of zero than [x].  Nothing is asked of [M] and [m] but to lie strictly
    between zero and infinity, so this holds however the magnitude of the
    velocity and its square were rounded. *)
Lemma drag_component_signed (M m x : float) (s : bool) :
  (0 <? M) = true -> (M <? infinity) = true ->
  (0 <? m) = true -> (m <? infinity) = true ->
  bounded_signed s (Prim2SF x) ->
  signed (negb s) (Prim2SF (- M * (x / m))) /\
  (Prim2SF x = S754_zero s -> Prim2SF (- M * (x / m)) = S754_zero (negb s)).
Proof.
  intros HM0 HM1 Hm0 Hm1 Hx.
  destruct (positive_finite M HM0 HM1) as (mM & eM & EM).
  destruct (positive_finite m Hm0 Hm1) as (mm & em & Em).
  rewrite mul_spec, opp_spec, div_spec, EM, Em. unfold SF64mul, SF64div.
  destruct (SFdiv_signed s (Prim2SF x) false mm em Hx) as [Hq Hq0].
  rewrite xorb_false_r in Hq, Hq0. split.
  - replace (negb s) with (xorb true s) by (destruct s; reflexivity).
    apply SFmul_signed. exact Hq.
  - intros Hz. rewrite (Hq0 Hz). destruct s; reflexivity.
Qed.

Lemma drag_component (M m x : float) :
  (0 <? M) = true -> (M <? infinity) = true ->
  (0 <? m) = true -> (m <? infinity) = true ->
  finite x ->
  let f := - M * (x / m) in
  (f =? f) = true /\
  ((0 <? x) = true -> (f <=? 0) = true) /\
  ((x <? 0) = true -> (0 <=? f) = true) /\
  ((x =? 0) = true -> (f =? 0) = true).
Proof.
  intros HM0 HM1 Hm0 Hm1 Hx f.
  destruct (finite_bounded x Hx) as [s Hs].
  destruct (drag_component_signed M m x s HM0 HM1 Hm0 Hm1 Hs) as [Hf Hf0].
  fold f in Hf, Hf0.
  split; [|split; [|split]].
  - exact (signed_eqb_refl f _ Hf).
  - intros Hpos. destruct (above_zero x s Hs Hpos) as [-> _].
    rewrite leb_spec. apply signed_true_leb_zero. exact Hf.
  - intros Hneg. destruct (below_zero x s Hs Hneg) as [-> _].
    rewrite leb_spec. apply signed_false_geb_zero. exact Hf.
  - intros Hz. rewrite eqb_spec, (Hf0 (equal_zero x s Hs Hz)).
    reflexivity.
Qed.

Lemma drag_components (M m : float) (v : list float) :
  (0 <? M) = true -> (M <? infinity) = true ->
  (0 <? m) = true -> (m <? infinity) = true ->
  Forall finite v ->
  Forall2 (fun x f =>
             (f =? f) = true /\
             ((0 <? x) = true -> (f <=? 0) = true) /\
             ((x <? 0) = true -> (0 <=? f) = true) /\
             ((x =? 0) = true -> (f =? 0) = true))
          v (map (fun x => - M * (x / m)) v).
Proof.
  intros HM0 HM1 Hm0 Hm1 Hv.
  induction Hv as [|x v Hx Hv IH]; simpl; constructor; [|exact IH].
  apply drag_component; assumption.
Qed.

(** *** The dot product of a drag with its velocity *)

(** A zero of either sign, or a number with the sign bit set. *)
Definition not_above_zero (x : spec_float) : Prop :=
  (exists s, x = S754_zero s) \/ signed true x.

Lemma binary_normalize_neg (p q : positive) (e : Z) :
  signed true (binary_normalize prec emax (Zneg p + Zneg q) e false).
Proof. simpl. apply binary_round_signed. Qed.

Lemma SFadd_not_above_zero (x y : spec_float) :
  not_above_zero x -> not_above_zero y ->
  not_above_zero (SFadd prec emax x y).
Proof.
  intros [[sx ->]|[->|[(mx & ex & ->)| ->]]] [[sy ->]|[->|[(my & ey & ->)| ->]]];
    try destruct sx; try destruct sy;
    try solve [ left; eexists; reflexivity
              | right; left; reflexivity
              | right; right; left; eexists; eexists; reflexivity
              | right; right; right; reflexivity ].
  right. unfold SFadd. apply binary_normalize_neg.
Qed.

Lemma not_above_zero_leb (x : float) :
  not_above_zero (Prim2SF x) -> (x <=? 0) = true.
Proof.
  rewrite leb_spec. change (Prim2SF 0) with (S754_zero false).
  intros [[s ->]|Hx]; [reflexivity|]. apply signed_true_leb_zero, Hx.
Qed.

(** A component of the drag times the component of the velocity it was
    computed from. *)
Lemma drag_term_not_above_zero (M m x : float) :
  (0 <? M) = true -> (M <? infinity) = true ->
  (0 <? m) = true -> (m <? infinity) = true ->
  finite x ->
  not_above_zero (Prim2SF ((- M * (x / m)) * x)).
Proof.
  intros HM0 HM1 Hm0 Hm1 Hx.
  destruct (finite_bounded x Hx) as [s Hs].
  destruct (drag_component_signed M m x s HM0 HM1 Hm0 Hm1 Hs) as [Hf Hf0].
  rewrite mul_spec. unfold SF64mul. destruct Hs as [Hz|(mx & ex & Hfin)].
  - rewrite (Hf0 Hz), Hz. left. eexists. reflexivity.
  - right. rewrite Hfin in *. rewrite FloatLaws.SFmul_comm.
    replace true with (xorb s (negb s)) by (destruct s; reflexivity).
    apply SFmul_signed. exact Hf.
Qed.

Lemma dot_drag_fold (M m : float) (v : list float) (acc : float) :
  (0 <? M) = true -> (M <? infinity) = true ->
  (0 <? m) = true -> (m <? infinity) = true ->
  Forall finite v ->
  not_above_zero (Prim2SF acc) ->
  not_above_zero
    (Prim2SF
       (fold_left (fun acc ab => add acc (mul (fst ab) (snd ab)))
                  (combine (map (fun x => - M * (x / m)) v) v) acc)).
Proof.
  intros HM0 HM1 Hm0 Hm1 Hv. revert acc.
  induction Hv as [|x v Hx Hv IH]; intros acc Hacc; simpl.
  - exact Hacc.
  - apply IH.
    change (@add float float_Num) with PrimFloat.add.
    change (@mul float float_Num) with PrimFloat.mul.
    rewrite add_spec. unfold SF64add. apply SFadd_not_above_zero; [exact Hacc|].
    apply drag_term_not_above_zero; assumption.
Qed.

(** The drag of the program, with its two [map]s made one. *)
Lemma calculate_drag_float (v : list float) (area c : float) :
  forces.calculate_drag v area c
  = map (fun x =>
           - (0.5 * c * area * forces.air_density
              * (forces.magnitude v * forces.magnitude v))
           * (x / forces.magnitude v)) v.
Proof.
  unfold forces.calculate_drag. rewrite map_map, drag_factor. reflexivity.
Qed.

End FloatDrag.

(** C8, as stated, fails on the binary64 floats of the program.  A velocity
    of [1e-200] along the first axis is not zero, but its square underflows:
    the magnitude is computed as zero, the unit vector as [0/0], and the
    drag is not-a-number in every component, its dot product with the
    velocity included, which is therefore not negative.  At [1e-160] the
    drag is a number, but its product with the velocity underflows: the dot
    product is zero, not negative.  And for the
    velocity of the docstring the magnitude of the computed drag is not the
    computed [0.5 * c * a * air_density * |v|^2]: they differ in the last
    digit. *)
Lemma drag_of_a_tiny_velocity_is_nan :
  let v := [1e-200; 0; 0]%float in
  let f := forces.calculate_drag v 1%float 1%float in
  (1e-200 =? 0)%float = false /\
  (0 <? 1)%float = true /\
  f = [nan; nan; nan] /\
  (forces.dot f v <? 0)%float = false /\
  let u := [1e-160; 0; 0]%float in
  forces.calculate_drag u 1%float 1%float
  = [-5.997956940512733e-321; -0; -0]%float /\
  (forces.dot (forces.calculate_drag u 1%float 1%float) u <? 0)%float = false /\
  let w := [1.4; -2.9; 0.6]%float in
  let fw := forces.calculate_drag w 0.4%float 1.2%float in
  forces.magnitude fw = 3.0902399999999997%float /\
  (0.5 * 1.2 * 0.4 * forces.air_density
   * (forces.magnitude w * forces.magnitude w))%float
  = 3.0902399999999992%float /\
  (forces.magnitude fw
   =? 0.5 * 1.2 * 0.4 * forces.air_density
      * (forces.magnitude w * forces.magnitude w))%float = false.
Proof. vm_compute. repeat split. Qed.

(** C8, amended.  On the binary64 floats of the program: for a velocity of
    finite components whose magnitude [m = sqrt(dot(v, v))] is computed
    strictly between zero and infinity, and with it the factor
    [M = 0.5 * c * a * air_density * m * m], the drag is exactly
    [-(M * (x / m))] in the component of each [x] of the velocity; no
    component is not-a-number; each lies on the other side of zero than
    [x], or is zero; and the dot product of the drag with the velocity is
    [<= 0].  In exact arithmetic, for a velocity with a component that is
    not zero, a positive area and a positive drag coefficient: the drag is
    the velocity times a negative factor, its dot product with the
    velocity is negative, its magnitude is
    [0.5 * c * a * air_density * |v|^2], and a velocity of twice the
    magnitude meets four times the drag. *)
Theorem drag_opposes_velocity_and_grows_with_its_square :
  (forall (v : list float) (area c : float),
      let m := forces.magnitude v in
      let M := (0.5 * c * area * forces.air_density * (m * m))%float in
      let f := forces.calculate_drag v area c in
      Forall FloatDrag.finite v ->
      (0 <? m)%float = true -> (m <? infinity)%float = true ->
      (0 <? M)%float = true -> (M <? infinity)%float = true ->
      f = map (fun x => PrimFloat.opp (M * (x / m))%float) v /\
      Forall2 (fun x fx =>
                 (fx =? fx)%float = true /\
                 ((0 <? x)%float = true -> (fx <=? 0)%float = true) /\
                 ((x <? 0)%float = true -> (0 <=? fx)%float = true) /\
                 ((x =? 0)%float = true -> (fx =? 0)%float = true)) v f /\
      (forces.dot f v <=? 0)%float = true) /\
  (forall (v : list R) (area c : R),
      Exists (fun x => x <> 0%R) v ->
      (0 < area)%R ->
      (0 < c)%R ->
      let f := forces.calculate_drag v area c in
      (exists k : R, (0 < k)%R /\ f = map (fun x => (- k * x)%R) v) /\
      (forces.dot f v < 0)%R /\
      forces.magnitude f
      = (0.5 * c * area * forces.air_density
         * (forces.magnitude v * forces.magnitude v))%R /\
      forall v' : list R,
        forces.magnitude v' = (2 * forces.magnitude v)%R ->
        forces.magnitude (forces.calculate_drag v' area c)
        = (4 * forces.magnitude f)%R).
Proof.
  split.
  - intros v area c m M f Hv Hm0 Hm1 HM0 HM1.
    assert (Hf : f = map (fun x => (PrimFloat.opp M * (x / m))%float) v)
      by apply FloatDrag.calculate_drag_float.
    split; [|split].
    + rewrite Hf. apply map_ext. intros x. apply float_mul_opp_l.
    + rewrite Hf. apply FloatDrag.drag_components; assumption.
    + rewrite Hf. apply FloatDrag.not_above_zero_leb.
      apply FloatDrag.dot_drag_fold; try assumption.
      left. exists false. reflexivity.
  - intros v area c Hv Ha Hc f. apply RealForces.dot_self_pos in Hv.
    split; [|split; [|split]].
    + apply RealForces.drag_antiparallel; assumption.
    + apply RealForces.drag_dot_velocity; assumption.
    + apply RealForces.drag_magnitude; assumption.
    + intros v' Hv'.
      pose proof (RealForces.magnitude_pos v Hv) as Hm.
      assert (Hpos : (0 < forces.dot v' v')%R)
        by (apply RealForces.magnitude_pos_inv; rewrite Hv'; lra).
      unfold f.
      rewrite (RealForces.drag_magnitude v' area c Hpos Ha Hc).
      rewrite (RealForces.drag_magnitude v area c Hv Ha Hc).
      rewrite Hv'. ring.
Qed.

Lemma drag_opposes_velocity_and_grows_with_its_square_witness :
  (let v := [1.4; -2.9; 0.6]%float in
   let f := forces.calculate_drag v 0.4%float 1.2%float in
   Forall2 (fun x fx =>
              (fx =? fx)%float = true /\
              ((0 <? x)%float = true -> (fx <=? 0)%float = true) /\
              ((x <? 0)%float = true -> (0 <=? fx)%float = true) /\
              ((x =? 0)%float = true -> (fx =? 0)%float = true)) v f /\
   (forces.dot f v <=? 0)%float = true) /\
  (forces.dot (forces.calculate_drag [3; 4; 0]%R 1%R 1%R) [3; 4; 0]%R < 0)%R.
Proof.
  split.
  - apply (proj1 drag_opposes_velocity_and_grows_with_its_square
             [1.4; -2.9; 0.6]%float 0.4%float 1.2%float);
      try (vm_compute; reflexivity).
    repeat constructor.
  - apply (proj2 drag_opposes_velocity_and_grows_with_its_square
             [3; 4; 0]%R 1%R 1%R).
    + apply Exists_cons_hd. lra.
    + lra.
    + lra.
Defined.

(** *** Differences of finite products *)

Module FloatCross.

Import FloatShapes.
Local Open Scope float_scope.

Lemma SFsub_bounded (sp sq : bool) (p q : spec_float) :
  bounded_signed sp p -> bounded_signed sq q ->
  SFsub prec emax p q <> S754_nan.
Proof.
  intros [->|(mp & ep & ->)] [->|(mq & eq & ->)]; simpl;
    try discriminate; try (destruct sp, sq; discriminate).
  destruct (_ - _)%Z; simpl; try discriminate;
    apply (signed_not_nan _ _ (binary_round_signed _ _ _)).
Qed.

Lemma float_sub_finite (p q : float) :
  FloatDrag.finite p -> FloatDrag.finite q -> p - q <> nan.
Proof.
  intros Hp Hq E.
  destruct (FloatDrag.finite_bounded p Hp) as [sp Hsp].
  destruct (FloatDrag.finite_bounded q Hq) as [sq Hsq].
  apply (SFsub_bounded sp sq _ _ Hsp Hsq).
  rewrite <- sub_spec, E. reflexivity.
Qed.

(** One component of the cross product against the same component with
    the operands exchanged, when neither product overflows. *)
Lemma cross_component_negated (a b c d : float) :
  FloatDrag.finite (a * b) -> FloatDrag.finite (c * d) ->
  (a * b - c * d =? - (d * c - b * a)) = true.
Proof.
  intros Hab Hcd.
  destruct (FloatLaws.cross_component_antisym a b c d) as [Heq|[Hnan _]].
  - exact Heq.
  - destruct (float_sub_finite _ _ Hab Hcd Hnan).
Qed.

End FloatCross.

(** C9, as stated, fails on the binary64 floats of the program: with
    components of [1e200] the products overflow, the third component of the
    cross product is [inf - inf], not-a-number, on both sides, and a
    not-a-number is [==] to nothing, its own negation included. *)
Lemma magnus_of_huge_vectors_is_not_negated :
  let a := [1e200; 1e200; 0]%float in
  let b := [1e200; 2e200; 0]%float in
  forces.calculate_magnus a b = Ok [0; 0; nan]%float /\
  forces.calculate_magnus b a = Ok [0; 0; nan]%float /\
  (nan =? - nan)%float = false.
Proof. vm_compute. repeat split. Qed.

(** C9, amended.  The Magnus force is the cross product of velocity and
    spin, in this order.  On the binary64 floats of the program, exchanging
    the two vectors negates every component as far as [==] can tell, unless
    the component is not-a-number on both sides; and where none of the six
    products of the cross product overflows or is not-a-number, every
    component is [==] to the negated component of the exchanged product.
    In exact arithmetic exchanging the two vectors negates every
    component. *)
Theorem magnus_is_the_cross_product_and_anticommutes :
  (forall (A : Type) (N : Num A) (v0 v1 v2 s0 s1 s2 : A),
      forces.calculate_magnus [v0; v1; v2] [s0; s1; s2]
      = Ok [sub (mul v1 s2) (mul v2 s1);
            sub (mul v2 s0) (mul v0 s2);
            sub (mul v0 s1) (mul v1 s0)]) /\
  (forall a0 a1 a2 b0 b1 b2 : float,
      exists ab ba : list float,
        forces.calculate_magnus [a0; a1; a2] [b0; b1; b2] = Ok ab /\
        forces.calculate_magnus [b0; b1; b2] [a0; a1; a2] = Ok ba /\
        Forall2 (fun x y => PrimFloat.eqb x (PrimFloat.opp y) = true \/
                            (x = nan /\ y = nan)) ab ba) /\
  (forall a0 a1 a2 b0 b1 b2 : float,
      FloatDrag.finite (a1 * b2)%float -> FloatDrag.finite (a2 * b1)%float ->
      FloatDrag.finite (a2 * b0)%float -> FloatDrag.finite (a0 * b2)%float ->
      FloatDrag.finite (a0 * b1)%float -> FloatDrag.finite (a1 * b0)%float ->
      exists ab ba : list float,
        forces.calculate_magnus [a0; a1; a2] [b0; b1; b2] = Ok ab /\
        forces.calculate_magnus [b0; b1; b2] [a0; a1; a2] = Ok ba /\
        Forall2 (fun x y => PrimFloat.eqb x (PrimFloat.opp y) = true) ab ba) /\
  (forall a0 a1 a2 b0 b1 b2 : R,
      exists ab ba : list R,
        forces.calculate_magnus [a0; a1; a2] [b0; b1; b2] = Ok ab /\
        forces.calculate_magnus [b0; b1; b2] [a0; a1; a2] = Ok ba /\
        ab = map Ropp ba).
Proof.
  split; [|split; [|split]].
  - reflexivity.
  - intros a0 a1 a2 b0 b1 b2. eexists. eexists.
    split; [reflexivity|]. split; [reflexivity|].
    repeat (apply Forall2_cons; [apply FloatLaws.cross_component_antisym|]).
    apply Forall2_nil.
  - intros a0 a1 a2 b0 b1 b2 H12 H21 H20 H02 H01 H10. eexists. eexists.
    split; [reflexivity|]. split; [reflexivity|].
    repeat (apply Forall2_cons;
            [apply FloatCross.cross_component_negated; assumption|]).
    apply Forall2_nil.
  - intros a0 a1 a2 b0 b1 b2. eexists. eexists.
    split; [reflexivity|]. split; [reflexivity|].
    simpl. repeat f_equal; ring.
Qed.

Lemma magnus_is_the_cross_product_and_anticommutes_witness :
  exists ab ba : list float,
    forces.calculate_magnus [42.0; -0.2; 1.3]%float [0.01; 0.02; 0.03]%float
    = Ok ab /\
    forces.calculate_magnus [0.01; 0.02; 0.03]%float [42.0; -0.2; 1.3]%float
    = Ok ba /\
    Forall2 (fun x y => PrimFloat.eqb x (PrimFloat.opp y) = true) ab ba.
Proof.
  apply (proj1 (proj2 (proj2 magnus_is_the_cross_product_and_anticommutes))
           42.0%float (-0.2)%float 1.3%float 0.01%float 0.02%float 0.03%float);
    vm_compute; reflexivity.
Defined.

(** ** Shapes: what a throw needs in order not to raise *)

Section Shapes.
Context {A : Type} `{Num A}.

Import pitches.

(** A position of two components at least, a velocity and a spin of three,
    and a mass that is not [== 0]. *)
Definition well_shaped (self : Pitch A) : Prop :=
  (2 <= List.length (position self))%nat /\
  List.length (velocity self) = 3%nat /\
  List.length (spin self) = 3%nat /\
  eqb (mass self) (of_int 0) = false.

Lemma for_each_py_div_ok (m : A) (l : list A) :
  eqb m (of_int 0) = false ->
  for_each (fun f => py_div f m) l = Ok (map (fun f => div f m) l).
Proof.
  intros Hm. induction l as [|f l IH]; simpl.
  - reflexivity.
  - unfold py_div at 1. rewrite Hm. simpl. rewrite IH. reflexivity.
Qed.

Lemma for_each_py_div_zero (m f : A) (l : list A) :
  eqb m (of_int 0) = true ->
  for_each (fun f => py_div f m) (f :: l) = Raise ZeroDivisionError.
Proof.
  intros Hm. simpl. unfold py_div. rewrite Hm. reflexivity.
Qed.

Lemma calculate_drag_length (v : list A) (a c : A) :
  List.length (forces.calculate_drag v a c) = List.length v.
Proof.
  unfold forces.calculate_drag. rewrite !length_map. reflexivity.
Qed.

Lemma calculate_magnus_shape (v s : list A) :
  List.length v = 3%nat -> List.length s = 3%nat ->
  exists m, forces.calculate_magnus v s = Ok m /\ List.length m = 3%nat.
Proof.
  destruct v as [|v0 [|v1 [|v2 [|]]]]; try discriminate.
  destruct s as [|s0 [|s1 [|s2 [|]]]]; try discriminate.
  intros _ _. eexists. split; reflexivity.
Qed.

(** With neither two nor three components in one of its operands, the
    cross product is refused. *)
Lemma calculate_magnus_refused (v s : list A) :
  (List.length v <> 2%nat /\ List.length v <> 3%nat) \/
  (List.length s <> 2%nat /\ List.length s <> 3%nat) ->
  forces.calculate_magnus v s = Raise ValueError.
Proof.
  unfold forces.calculate_magnus, forces.cross.
  destruct v as [|v0 [|v1 [|v2 [|]]]]; destruct s as [|s0 [|s1 [|s2 [|]]]];
    simpl; intros [[H2 H3]|[H2 H3]]; try reflexivity; congruence.
Qed.

Lemma net_force_length (f_gravity drag magnus : list A) :
  List.length f_gravity = 3%nat ->
  List.length drag = 3%nat ->
  List.length magnus = 3%nat ->
  List.length (forces.add_forces [f_gravity; drag; magnus]) = 3%nat.
Proof.
  intros Hg Hd Hm. rewrite add_forces_length. simpl.
  rewrite Hg, Hd, Hm. reflexivity.
Qed.

(** The body of the loop runs through on a well-shaped Pitch and leaves
    one. *)
Lemma step_well_shaped (f_gravity : list A) (dt : A) (self : Pitch A) :
  List.length f_gravity = 3%nat ->
  well_shaped self ->
  exists self',
    step f_gravity dt self = Ok self' /\
    well_shaped self' /\
    List.length (position self')
    = Nat.min (List.length (position self)) 3.
Proof.
  intros Hg (Hp & Hv & Hs & Hm).
  destruct (calculate_magnus_shape _ _ Hv Hs) as (magnus & Hmagnus & Hlen).
  unfold step. rewrite Hmagnus. simpl.
  rewrite (for_each_py_div_ok _ _ Hm). simpl.
  eexists. split; [reflexivity|]. unfold well_shaped. simpl.
  rewrite !zip_add_length, !length_map.
  rewrite (net_force_length _ _ _ Hg
             (eq_trans (calculate_drag_length _ _ _) Hv) Hlen).
  rewrite Hv. repeat split; try assumption; lia.
Qed.

Lemma in_flight_never_raises (self : Pitch A) (distance : A) :
  (2 <= List.length (position self))%nat ->
  exists b, in_flight self distance = Ok b.
Proof.
  unfold in_flight, while_test.
  destruct (position self) as [|x [|y rest]]; simpl; try lia.
  intros _. destruct (ltb x distance); eexists; reflexivity.
Qed.

Lemma throw_loop_never_raises (fuel : nat) (f_gravity : list A)
    (distance dt : A) (self : Pitch A) (e : PyError) :
  List.length f_gravity = 3%nat ->
  well_shaped self ->
  throw_loop fuel f_gravity distance dt self <> Some (Raise e).
Proof.
  intros Hg. revert self.
  induction fuel as [|fuel IH]; intros self Hself; simpl;
    destruct (in_flight_never_raises self distance (proj1 Hself)) as ([|] & ->);
    try discriminate.
  destruct (step_well_shaped f_gravity dt self Hg Hself) as (s1 & -> & Hs1 & _).
  apply IH. exact Hs1.
Qed.

(** [k] steps keep a well-shaped Pitch well-shaped. *)
Lemma steps_well_shaped (k : nat) (f_gravity : list A) (dt : A)
    (self self' : Pitch A) :
  List.length f_gravity = 3%nat ->
  well_shaped self ->
  steps k f_gravity dt self = Ok self' ->
  well_shaped self'.
Proof.
  intros Hg. revert self.
  induction k as [|k IH]; intros self Hself; simpl.
  - intros [= <-]. exact Hself.
  - destruct (step_well_shaped f_gravity dt self Hg Hself) as (s1 & -> & Hs1 & _).
    simpl. apply IH. exact Hs1.
Qed.

(** With three components in the position too, every position that [k]
    steps append has three. *)
Lemma steps_three_components (k : nat) (f_gravity : list A) (dt : A)
    (self self' : Pitch A) :
  List.length f_gravity = 3%nat ->
  well_shaped self ->
  List.length (position self) = 3%nat ->
  Forall (fun p => List.length p = 3%nat) (trail self) ->
  steps k f_gravity dt self = Ok self' ->
  List.length (position self') = 3%nat /\
  Forall (fun p => List.length p = 3%nat) (trail self').
Proof.
  intros Hg. revert self.
  induction k as [|k IH]; intros self Hself Hp Ht; simpl.
  - intros [= <-]. split; assumption.
  - destruct (step_well_shaped f_gravity dt self Hg Hself)
      as (s1 & Hstep & Hs1 & Hlen).
    rewrite Hstep. simpl. rewrite Hp in Hlen. simpl in Hlen.
    apply IH; try assumption.
    rewrite (step_trail _ _ _ _ Hstep). apply Forall_app. split; [exact Ht|].
    constructor; [exact Hlen|constructor].
Qed.

End Shapes.

(** ** What [throw] does with its parameters *)

Lemma step_position (A : Type) (N : Num A) (f_gravity : list A) (dt : A)
    (self self' : pitches.Pitch A) :
  pitches.step f_gravity dt self = Ok self' ->
  pitches.position self'
  = zip_add (pitches.position self)
            (map (fun each_xp => mul each_xp dt) (pitches.velocity self)).
Proof.
  unfold pitches.step.
  destruct (forces.calculate_magnus _ _); simpl; [|discriminate].
  destruct (for_each _ _); simpl; [|discriminate].
  intros [= <-]. reflexivity.
Qed.

(** C4, amended.  Construction stores the three vectors it is given, of
    whatever lengths, beside the constants of the class; mass, area and
    drag coefficient are no parameters.  [throw] takes every distance and
    every dt.  Where [position[0] >= distance] or [position[1] <= 0] at the
    call it returns at once, with no error and the Pitch as it was.  On a
    well-shaped Pitch it raises nothing, whatever the distance and the dt.
    On a well-shaped Pitch in flight the body of the loop runs with the dt
    as it was given, moving the position by [velocity * dt], and the throw
    goes on from there.  And where the body raises on a Pitch in flight,
    it does so for every dt: no exception of a throw is about the dt. *)
Theorem nothing_is_validated_at_the_boundary (A : Type) (N : Num A) :
  (forall (p v s : list A) (l c : string),
      let self := pitches.__init__ p v s l c in
      pitches.position self = p /\
      pitches.velocity self = v /\
      pitches.spin self = s /\
      pitches.trail self = [p] /\
      pitches.mass self = pitches.class_mass /\
      pitches.area self = pitches.class_area /\
      pitches.drag_coefficient self = pitches.class_drag_coefficient) /\
  (forall (self : pitches.Pitch A) (x y : A) (rest : list A)
          (distance dt : A) (fuel : nat),
      pitches.position self = x :: y :: rest ->
      geb x distance = true \/ leb y (of_int 0) = true ->
      pitches.throw fuel self distance dt = Some (Ok self)) /\
  (forall (self : pitches.Pitch A) (distance dt : A) (fuel : nat)
          (e : PyError),
      well_shaped self ->
      pitches.throw fuel self distance dt <> Some (Raise e)) /\
  (forall (self : pitches.Pitch A) (distance dt : A) (fuel : nat),
      well_shaped self ->
      pitches.in_flight self distance = Ok true ->
      exists self1 : pitches.Pitch A,
        pitches.step (forces.calculate_gravity (pitches.mass self)) dt self
        = Ok self1 /\
        pitches.position self1
        = zip_add (pitches.position self)
                  (map (fun v => mul v dt) (pitches.velocity self)) /\
        pitches.throw (S fuel) self distance dt
        = pitches.throw_loop fuel
            (forces.calculate_gravity (pitches.mass self)) distance dt self1) /\
  (forall (self : pitches.Pitch A) (distance dt dt' : A) (fuel : nat)
          (e : PyError),
      pitches.in_flight self distance = Ok true ->
      pitches.step (forces.calculate_gravity (pitches.mass self)) dt self
      = Raise e ->
      pitches.throw (S fuel) self distance dt' = Some (Raise e)).
Proof.
  split; [|split; [|split; [|split]]].
  - intros p v s l c. repeat split.
  - intros self x y rest distance dt fuel Hpos Hthere.
    unfold pitches.throw. apply throw_loop_at_rest.
    unfold pitches.in_flight. rewrite Hpos.
    apply while_test_stops. exact Hthere.
  - intros self distance dt fuel e Hself. unfold pitches.throw.
    apply throw_loop_never_raises; [reflexivity|exact Hself].
  - intros self distance dt fuel Hself Hflight.
    set (f_gravity := forces.calculate_gravity (pitches.mass self)) in *.
    assert (Hg : List.length f_gravity = 3%nat) by reflexivity.
    destruct (step_well_shaped f_gravity dt self Hg Hself)
      as (self1 & Hstep & _ & _).
    exists self1. split; [exact Hstep|]. split.
    + apply (step_position _ _ _ _ _ _ Hstep).
    + unfold pitches.throw. fold f_gravity. simpl.
      rewrite Hflight, Hstep. reflexivity.
  - intros self distance dt dt' fuel e Hflight.
    unfold pitches.throw. simpl. rewrite Hflight.
    unfold pitches.step.
    destruct (forces.calculate_magnus _ _) as [magnus|e1]; simpl.
    + destruct (for_each _ _) as [acceleration|e2]; simpl.
      * discriminate.
      * intros [= <-]. reflexivity.
    + intros [= <-]. reflexivity.
Qed.

Lemma nothing_is_validated_at_the_boundary_witness :
  exists self1 : pitches.Pitch float,
    pitches.step (forces.calculate_gravity (pitches.mass Runs.slow_ball))
                 (-1)%float Runs.slow_ball
    = Ok self1 /\
    pitches.position self1
    = zip_add (pitches.position Runs.slow_ball)
              (map (fun v => mul v (-1)%float)
                   (pitches.velocity Runs.slow_ball)) /\
    pitches.throw 6 Runs.slow_ball 18%float (-1)%float
    = pitches.throw_loop 5
        (forces.calculate_gravity (pitches.mass Runs.slow_ball))
        18%float (-1)%float self1.
Proof.
  apply (proj1 (proj2 (proj2 (proj2
           (nothing_is_validated_at_the_boundary float float_Num))))
           Runs.slow_ball 18%float (-1)%float 5).
  - repeat split; try reflexivity. simpl. lia.
  - reflexivity.
Defined.

(** * Further properties of the code *)

(** ** What [throw] raises, and when *)

(** X1.  A throw of a Pitch with a position of two components at least, a
    velocity and a spin of three and a mass that is not [== 0] raises no
    exception: it returns, or it is still running. *)
Theorem throw_well_shaped_never_raises
    (A : Type) (N : Num A) (self : pitches.Pitch A) (distance dt : A)
    (fuel : nat) (e : PyError) :
  well_shaped self ->
  pitches.throw fuel self distance dt <> Some (Raise e).
Proof.
  intros Hself. unfold pitches.throw.
  apply throw_loop_never_raises; [reflexivity|exact Hself].
Qed.

Lemma throw_well_shaped_never_raises_witness :
  pitches.throw 300 MoreRuns.knuckleball 18%float 0.001%float
  <> Some (Raise ZeroDivisionError).
Proof.
  apply (throw_well_shaped_never_raises float float_Num MoreRuns.knuckleball
           18%float 0.001%float 300 ZeroDivisionError).
  repeat split; try reflexivity. simpl. lia.
Defined.

(** X2.  A throw of a well-shaped Pitch whose position and recorded
    positions have three components leaves a position and a velocity of
    three components, and a trail of positions of three components. *)
Theorem throw_keeps_three_components
    (A : Type) (N : Num A) (self self' : pitches.Pitch A) (distance dt : A)
    (fuel : nat) :
  well_shaped self ->
  List.length (pitches.position self) = 3%nat ->
  Forall (fun p => List.length p = 3%nat) (pitches.trail self) ->
  pitches.throw fuel self distance dt = Some (Ok self') ->
  List.length (pitches.position self') = 3%nat /\
  List.length (pitches.velocity self') = 3%nat /\
  Forall (fun p => List.length p = 3%nat) (pitches.trail self').
Proof.
  intros Hself Hp Ht Hthrow.
  destruct (throw_loop_sound _ _ _ _ _ _ Hthrow) as (k & _ & Hsteps & _).
  set (f_gravity := forces.calculate_gravity (pitches.mass self)) in *.
  assert (Hg : List.length f_gravity = 3%nat) by reflexivity.
  destruct (steps_three_components k f_gravity dt self self' Hg Hself Hp Ht Hsteps)
    as (Hp' & Ht').
  pose proof (steps_well_shaped k f_gravity dt self self' Hg Hself Hsteps)
    as (_ & Hv' & _).
  repeat split; assumption.
Qed.

Lemma throw_keeps_three_components_witness :
  List.length (pitches.position Runs.knuckleball_thrown) = 3%nat /\
  List.length (pitches.velocity Runs.knuckleball_thrown) = 3%nat /\
  Forall (fun p => List.length p = 3%nat) (pitches.trail Runs.knuckleball_thrown).
Proof.
  apply (throw_keeps_three_components float float_Num MoreRuns.knuckleball
           Runs.knuckleball_thrown (of_int 18) (lit 1 3) 1000).
  - repeat split; try reflexivity. simpl. lia.
  - reflexivity.
  - repeat constructor.
  - vm_compute. reflexivity.
Defined.

(** X3.  A position too short for the test of the loop: with no component
    the throw raises IndexError at once; with one, it raises IndexError
    when that component is below the distance, and otherwise returns the
    Pitch as it is, the height never being read. *)
Theorem throw_short_position
    (A : Type) (N : Num A) (self : pitches.Pitch A) (distance dt : A)
    (fuel : nat) :
  (pitches.position self = [] ->
   pitches.throw fuel self distance dt = Some (Raise IndexError)) /\
  (forall x : A,
      pitches.position self = [x] ->
      pitches.throw fuel self distance dt
      = if ltb x distance then Some (Raise IndexError) else Some (Ok self)).
Proof.
  unfold pitches.throw. split.
  - intros Hp. destruct fuel; simpl; unfold pitches.in_flight;
      rewrite Hp; reflexivity.
  - intros x Hp. destruct fuel; simpl; unfold pitches.in_flight;
      rewrite Hp; unfold pitches.while_test; simpl;
      destruct (ltb x distance); reflexivity.
Qed.

Lemma throw_short_position_witness :
  pitches.throw 5 MoreRuns.point_ball 18%float 0.001%float
  = if ltb 0%float 18%float then Some (Raise IndexError)
    else Some (Ok MoreRuns.point_ball).
Proof.
  apply (proj2 (throw_short_position float float_Num MoreRuns.point_ball
                  18%float 0.001%float 5) 0%float).
  reflexivity.
Defined.

(** X4.  In flight, a velocity or a spin with neither two nor three
    components makes the first step raise ValueError, from the cross
    product. *)
Theorem throw_bad_cross_shape
    (A : Type) (N : Num A) (self : pitches.Pitch A) (distance dt : A)
    (fuel : nat) :
  pitches.in_flight self distance = Ok true ->
  (List.length (pitches.velocity self) <> 2%nat /\
   List.length (pitches.velocity self) <> 3%nat) \/
  (List.length (pitches.spin self) <> 2%nat /\
   List.length (pitches.spin self) <> 3%nat) ->
  pitches.throw (S fuel) self distance dt = Some (Raise ValueError).
Proof.
  intros Hflight Hshape. unfold pitches.throw. simpl. rewrite Hflight.
  unfold pitches.step. rewrite (calculate_magnus_refused _ _ Hshape).
  reflexivity.
Qed.

Lemma throw_bad_cross_shape_witness :
  pitches.throw 1 MoreRuns.one_spin_ball 18%float 0.001%float
  = Some (Raise ValueError).
Proof.
  apply (throw_bad_cross_shape float float_Num MoreRuns.one_spin_ball
           18%float 0.001%float 0).
  - reflexivity.
  - right. simpl. split; lia.
Defined.

(** X5.  In flight, with a velocity and a spin of three components, a mass
    that is [== 0] makes the first step raise ZeroDivisionError. *)
Theorem throw_zero_mass
    (A : Type) (N : Num A) (self : pitches.Pitch A) (distance dt : A)
    (fuel : nat) :
  pitches.in_flight self distance = Ok true ->
  List.length (pitches.velocity self) = 3%nat ->
  List.length (pitches.spin self) = 3%nat ->
  eqb (pitches.mass self) (of_int 0) = true ->
  pitches.throw (S fuel) self distance dt = Some (Raise ZeroDivisionError).
Proof.
  intros Hflight Hv Hs Hm. unfold pitches.throw. simpl. rewrite Hflight.
  destruct (calculate_magnus_shape _ _ Hv Hs) as (magnus & Hmagnus & Hlen).
  unfold pitches.step. rewrite Hmagnus. simpl.
  pose proof (net_force_length
                (forces.calculate_gravity (pitches.mass self))
                (forces.calculate_drag (pitches.velocity self)
                   (pitches.area self) (pitches.drag_coefficient self))
                magnus eq_refl
                (eq_trans (calculate_drag_length _ _ _) Hv) Hlen) as Hnet.
  destruct (forces.add_forces _) as [|f net]; [discriminate|].
  rewrite (for_each_py_div_zero _ f net Hm). reflexivity.
Qed.

Lemma throw_zero_mass_witness :
  pitches.throw 1 MoreRuns.massless_ball 18%float 0.001%float
  = Some (Raise ZeroDivisionError).
Proof.
  apply (throw_zero_mass float float_Num MoreRuns.massless_ball
           18%float 0.001%float 0); reflexivity.
Defined.

(** ** Throwing again *)

Section ThrowAgain.
Context {A : Type} `{Num A}.

Import pitches.

Lemma in_flight_farther (self : Pitch A) (d1 d2 : A) :
  (forall x, ltb x d1 = true -> ltb x d2 = true) ->
  in_flight self d1 = Ok true -> in_flight self d2 = Ok true.
Proof.
  intros Hd. unfold in_flight, while_test.
  destruct (position self) as [|x [|y rest]]; simpl; try discriminate.
  - destruct (ltb x d1); discriminate.
  - destruct (ltb x d1) eqn:Hx; [|discriminate].
    rewrite (Hd x Hx). trivial.
Qed.

(** A throw to [d1] followed by a throw to [d2], where whatever is below
    [d1] is below [d2], is the throw to [d2]. *)
Lemma throw_loop_resumes (f_gravity : list A) (d1 d2 dt : A)
    (self s1 s2 : Pitch A) (fuel1 fuel2 : nat) :
  (forall x, ltb x d1 = true -> ltb x d2 = true) ->
  throw_loop fuel1 f_gravity d1 dt self = Some (Ok s1) ->
  throw_loop fuel2 f_gravity d2 dt s1 = Some (Ok s2) ->
  throw_loop (fuel1 + fuel2) f_gravity d2 dt self = Some (Ok s2).
Proof.
  intros Hd H1 H2.
  destruct (throw_loop_sound _ _ _ _ _ _ H1) as (k1 & Hk1 & Hs1 & _ & Hb1).
  destruct (throw_loop_sound _ _ _ _ _ _ H2) as (k2 & Hk2 & Hs2 & Hstop & Hb2).
  apply (throw_loop_complete f_gravity d2 dt (k1 + k2)); [|lia].
  repeat split.
  - rewrite steps_add, Hs1. exact Hs2.
  - exact Hstop.
  - intros j sj Hj Hsj.
    destruct (Nat.lt_ge_cases j k1) as [Hlt|Hge].
    + apply (in_flight_farther sj d1 d2 Hd). exact (Hb1 j sj Hlt Hsj).
    + apply (Hb2 (j - k1)%nat sj); [lia|].
      replace j with (k1 + (j - k1))%nat in Hsj by lia.
      rewrite steps_add, Hs1 in Hsj. exact Hsj.
Qed.

End ThrowAgain.

Lemma SFltb_leb_trans (x a b : spec_float) :
  SFltb x a = true -> SFleb a b = true -> SFltb x b = true.
Proof.
  unfold SFltb, SFleb.
  destruct x as [sx|sx| |sx mx ex], a as [sa|sa| |sa ma ea],
           b as [sb|sb| |sb mb eb]; simpl;
    try destruct sx; try destruct sa; try destruct sb; simpl;
    try congruence;
    change (PosDef.Pos.compare_cont Eq) with Pos.compare;
    repeat match goal with
           | |- context [Z.compare ?u ?v] =>
               destruct (Z.compare_spec u v); simpl; try congruence
           | |- context [Pos.compare ?u ?v] =>
               destruct (Pos.compare_spec u v); simpl; try congruence
           end;
    try lia.
Qed.

Lemma float_ltb_leb_trans (x a b : float) :
  ltb x a = true -> leb a b = true -> ltb x b = true.
Proof.
  change (PrimFloat.ltb x a = true -> PrimFloat.leb a b = true ->
          PrimFloat.ltb x b = true).
  rewrite !ltb_spec, leb_spec. apply SFltb_leb_trans.
Qed.

Lemma real_ltb_leb_trans (x a b : R) :
  ltb x a = true -> leb a b = true -> ltb x b = true.
Proof.
  change (Real.ltb x a = true -> Real.leb a b = true -> Real.ltb x b = true).
  unfold Real.ltb, Real.leb.
  destruct (Rlt_dec x a), (Rle_dec a b), (Rlt_dec x b);
    intros; try reflexivity; try discriminate.
  lra.
Qed.

(** X6.  Once [throw] has returned, a second throw to the same distance,
    with any dt, takes no step and returns the Pitch as it is. *)
Theorem throw_twice_is_throw_once
    (A : Type) (N : Num A) (self self' : pitches.Pitch A) (distance dt dt' : A)
    (fuel fuel' : nat) :
  pitches.throw fuel self distance dt = Some (Ok self') ->
  pitches.throw fuel' self' distance dt' = Some (Ok self').
Proof.
  intros Hthrow.
  destruct (throw_loop_sound _ _ _ _ _ _ Hthrow) as (k & _ & _ & Hstop & _).
  unfold pitches.throw. apply throw_loop_at_rest. exact Hstop.
Qed.

Lemma throw_twice_is_throw_once_witness :
  pitches.throw 0 Runs.knuckleball_thrown (of_int 18) 0.5%float
  = Some (Ok Runs.knuckleball_thrown).
Proof.
  apply (throw_twice_is_throw_once float float_Num MoreRuns.knuckleball
           Runs.knuckleball_thrown (of_int 18) (lit 1 3) 0.5%float 1000 0).
  vm_compute. reflexivity.
Defined.

Lemma throw_two_legs (A : Type) (N : Num A) (self s1 s2 : pitches.Pitch A)
    (d1 d2 dt : A) (fuel1 fuel2 : nat) :
  (forall x, ltb x d1 = true -> ltb x d2 = true) ->
  pitches.throw fuel1 self d1 dt = Some (Ok s1) ->
  pitches.throw fuel2 s1 d2 dt = Some (Ok s2) ->
  pitches.throw (fuel1 + fuel2) self d2 dt = Some (Ok s2).
Proof.
  unfold pitches.throw. intros Hd H1 H2.
  destruct (throw_loop_sound _ _ _ _ _ _ H1) as (k & _ & Hsteps & _).
  destruct (steps_frame _ _ _ _ _ Hsteps) as (Hmass & _).
  rewrite Hmass in H2.
  exact (throw_loop_resumes _ d1 d2 dt self s1 s2 fuel1 fuel2 Hd H1 H2).
Qed.

(** X7.  On floats and in exact arithmetic alike: a throw to [d1] followed
    by a throw of the same Pitch to a distance [d2 >= d1], with the same
    dt, leaves the Pitch that one throw to [d2] leaves. *)
Theorem throw_in_two_legs :
  (forall (self s1 s2 : pitches.Pitch float) (d1 d2 dt : float)
          (fuel1 fuel2 : nat),
      leb d1 d2 = true ->
      pitches.throw fuel1 self d1 dt = Some (Ok s1) ->
      pitches.throw fuel2 s1 d2 dt = Some (Ok s2) ->
      pitches.throw (fuel1 + fuel2) self d2 dt = Some (Ok s2)) /\
  (forall (self s1 s2 : pitches.Pitch R) (d1 d2 dt : R)
          (fuel1 fuel2 : nat),
      leb d1 d2 = true ->
      pitches.throw fuel1 self d1 dt = Some (Ok s1) ->
      pitches.throw fuel2 s1 d2 dt = Some (Ok s2) ->
      pitches.throw (fuel1 + fuel2) self d2 dt = Some (Ok s2)).
Proof.
  split; intros self s1 s2 d1 d2 dt fuel1 fuel2 Hd H1 H2.
  - apply (throw_two_legs _ _ self s1 s2 d1 d2 dt fuel1 fuel2); try assumption.
    intros x Hx. exact (float_ltb_leb_trans x d1 d2 Hx Hd).
  - apply (throw_two_legs _ _ self s1 s2 d1 d2 dt fuel1 fuel2); try assumption.
    intros x Hx. exact (real_ltb_leb_trans x d1 d2 Hx Hd).
Qed.

Lemma throw_in_two_legs_witness :
  pitches.throw (3 + 10) Runs.slow_ball 5%float 0.125%float
  = Some (Ok MoreRuns.slow_ball_thrown_to_5).
Proof.
  apply (proj1 throw_in_two_legs Runs.slow_ball Runs.slow_ball_thrown_short
           MoreRuns.slow_ball_thrown_to_5 3%float 5%float 0.125%float 3 10);
    vm_compute; reflexivity.
Defined.

(** ** A throw that stands still *)

Section Standstill.
Context {A : Type} `{Num A}.
Variables (f_gravity : list A) (distance dt : A).

Import pitches.

(** Two Pitches that the body of the loop cannot tell apart: they differ
    in their trails and in what the body does not read. *)
Definition same_flight (s s' : Pitch A) : Prop :=
  mass s = mass s' /\
  drag_coefficient s = drag_coefficient s' /\
  area s = area s' /\
  position s = position s' /\
  velocity s = velocity s' /\
  spin s = spin s'.

Lemma step_same_flight (s s' s1 : Pitch A) :
  same_flight s s' ->
  step f_gravity dt s = Ok s1 ->
  exists s1',
    step f_gravity dt s' = Ok s1' /\
    position s1' = position s1 /\
    velocity s1' = velocity s1.
Proof.
  intros (Hm & Hc & Ha & Hp & Hv & Hs). unfold step.
  rewrite <- Hm, <- Hc, <- Ha, <- Hp, <- Hv, <- Hs.
  destruct (forces.calculate_magnus _ _); simpl; [|discriminate].
  destruct (for_each _ _); simpl; [|discriminate].
  intros [= <-]. eexists. split; [reflexivity|]. split; reflexivity.
Qed.

(** Where one run of the body leaves position and velocity as they were,
    so does the next, and the test of the loop holds for ever. *)
Lemma throw_loop_standstill (fuel : nat) (self : Pitch A) :
  in_flight self distance = Ok true ->
  (exists self1,
      step f_gravity dt self = Ok self1 /\
      position self1 = position self /\
      velocity self1 = velocity self) ->
  throw_loop fuel f_gravity distance dt self = None.
Proof.
  revert self. induction fuel as [|fuel IH];
    intros self Hflight (self1 & Hstep & Hp & Hv); simpl; rewrite Hflight.
  - reflexivity.
  - rewrite Hstep. apply IH.
    + unfold in_flight in *. rewrite Hp. exact Hflight.
    + destruct (step_frame f_gravity dt self self1 Hstep)
        as (Hm & Hc & _ & Ha & _ & _ & _ & _ & Hs).
      assert (Hsame : same_flight self self1)
        by (repeat split; symmetry; assumption).
      destruct (step_same_flight self self1 self1 Hsame Hstep)
        as (s2 & Hstep2 & Hp2 & Hv2).
      exists s2. split; [exact Hstep2|]. split; assumption.
Qed.

End Standstill.

(** X8.  A throw whose step changes nothing never returns.  Where the
    Pitch is in flight and one run of the body of the loop leaves its
    position and its velocity as they were (a dt of zero does that to a
    ball of finite numbers), every later run does the same: whatever the
    fuel, the loop is still running. *)
Theorem throw_at_a_standstill_runs_forever
    (A : Type) (N : Num A) (self self1 : pitches.Pitch A) (distance dt : A)
    (fuel : nat) :
  pitches.in_flight self distance = Ok true ->
  pitches.step (forces.calculate_gravity (pitches.mass self)) dt self
  = Ok self1 ->
  pitches.position self1 = pitches.position self ->
  pitches.velocity self1 = pitches.velocity self ->
  pitches.throw fuel self distance dt = None.
Proof.
  intros Hflight Hstep Hp Hv. unfold pitches.throw.
  apply throw_loop_standstill; [exact Hflight|].
  exists self1. repeat split; assumption.
Qed.

Lemma throw_at_a_standstill_runs_forever_witness :
  pitches.throw 1000 Runs.slow_ball 18%float 0%float = None.
Proof.
  apply (throw_at_a_standstill_runs_forever float float_Num Runs.slow_ball
           (Runs.slow_ball_with_trail [[0; 1; 0]; [0; 1; 0]]%float)
           18%float 0%float 1000).
  - reflexivity.
  - vm_compute. reflexivity.
  - reflexivity.
  - reflexivity.
Defined.

(** ** The Euler step on vectors of any lengths *)

Section ZipInversion.
Context {A : Type} `{Num A}.

Lemma zip_add_nth_error_inv (u w : list A) (i : nat) (r : A) :
  nth_error (zip_add u w) i = Some r ->
  exists a b, nth_error u i = Some a /\ nth_error w i = Some b /\ r = add a b.
Proof.
  revert w i.
  induction u as [|a' u IH]; intros [|b' w] [|i]; simpl; try discriminate.
  - intros [= <-]. exists a', b'. repeat split.
  - apply IH.
Qed.

Lemma nth_error_scaled_inv (xs : list A) (k : A) (i : nat) (r : A) :
  nth_error (map (fun each => mul each k) xs) i = Some r ->
  exists x, nth_error xs i = Some x /\ r = mul x k.
Proof.
  rewrite nth_error_map. destruct (nth_error xs i) as [x|]; simpl;
    [|discriminate].
  intros [= <-]. exists x. split; reflexivity.
Qed.

End ZipInversion.

(** X9.  [new_state] takes vectors of any lengths and raises nothing: the
    new position has an axis [i] exactly where [x] and [xp] both have one,
    the new velocity exactly where [xp] and [xpp] both have one, so each
    is as long as the shorter of its two sources, and the values there are
    those of the Euler step. *)
Theorem new_state_on_any_lengths
    (A : Type) (N : Num A) (x xp xpp : list A) (dt : A) :
  let new := euler.new_state x xp xpp dt in
  List.length (fst new) = Nat.min (List.length x) (List.length xp) /\
  List.length (snd new) = Nat.min (List.length xp) (List.length xpp) /\
  (forall (i : nat) (r : A),
      nth_error (fst new) i = Some r <->
      exists xi vi, nth_error x i = Some xi /\ nth_error xp i = Some vi /\
                    r = add xi (mul vi dt)) /\
  (forall (i : nat) (r : A),
      nth_error (snd new) i = Some r <->
      exists vi ai, nth_error xp i = Some vi /\ nth_error xpp i = Some ai /\
                    r = add vi (mul ai dt)).
Proof.
  unfold euler.new_state. simpl. repeat split.
  - rewrite zip_add_length, length_map. reflexivity.
  - rewrite zip_add_length, length_map. reflexivity.
  - intros Hr. destruct (zip_add_nth_error_inv _ _ _ _ Hr) as (a & b & Ha & Hb & ->).
    destruct (nth_error_scaled_inv _ _ _ _ Hb) as (v & Hv & ->).
    exists a, v. repeat split; assumption.
  - intros (xi & vi & Hx & Hv & ->).
    apply zip_add_nth_error; [assumption|]. now apply nth_error_scaled.
  - intros Hr. destruct (zip_add_nth_error_inv _ _ _ _ Hr) as (a & b & Ha & Hb & ->).
    destruct (nth_error_scaled_inv _ _ _ _ Hb) as (v & Hv & ->).
    exists a, v. repeat split; assumption.
  - intros (vi & ai & Hv & Ha & ->).
    apply zip_add_nth_error; [assumption|]. now apply nth_error_scaled.
Qed.

(** ** Sums of forces in exact arithmetic *)

From Stdlib Require Permutation.

Module RealSums.

Local Open Scope R_scope.

Lemma zip_add_comm (u w : list R) : zip_add u w = zip_add w u.
Proof.
  revert w. induction u as [|a u IH]; intros [|b w]; try reflexivity.
  unfold zip_add in *. simpl. rewrite IH. f_equal. ring.
Qed.

Lemma zip_add_assoc (u v w : list R) :
  zip_add (zip_add u v) w = zip_add u (zip_add v w).
Proof.
  revert v w. induction u as [|a u IH]; intros [|b v] [|c w]; try reflexivity.
  unfold zip_add in *. simpl. rewrite IH. f_equal. ring.
Qed.

(** Adding the zeros of the start changes no vector of three components or
    fewer. *)
Lemma zip_add_zeros (u : list R) :
  (List.length u <= 3)%nat -> zip_add u [0; 0; 0] = u.
Proof.
  destruct u as [|a [|b [|c [|d u]]]]; simpl; intros Hu; try lia;
    unfold zip_add; simpl; repeat f_equal; ring.
Qed.

Lemma fold_zip_add_swap (fs : list (list R)) (acc f : list R) :
  fold_left (fun net_force f => zip_add net_force f) fs (zip_add acc f)
  = zip_add (fold_left (fun net_force f => zip_add net_force f) fs acc) f.
Proof.
  revert acc. induction fs as [|h fs IH]; intros acc; simpl.
  - reflexivity.
  - rewrite <- IH. f_equal.
    rewrite !zip_add_assoc, (zip_add_comm f h). reflexivity.
Qed.

Lemma fold_zip_add_perm (fs gs : list (list R)) (acc : list R) :
  Permutation.Permutation fs gs ->
  fold_left (fun net_force f => zip_add net_force f) fs acc
  = fold_left (fun net_force f => zip_add net_force f) gs acc.
Proof.
  intros Hperm. revert acc.
  induction Hperm as [|f fs gs _ IH|f h fs|fs gs hs _ IH1 _ IH2]; intros acc;
    simpl.
  - reflexivity.
  - apply IH.
  - f_equal. rewrite !zip_add_assoc, (zip_add_comm f h). reflexivity.
  - rewrite IH1. apply IH2.
Qed.

Lemma add_forces_le_3 (fs : list (list R)) :
  (List.length (forces.add_forces fs) <= 3)%nat.
Proof.
  rewrite add_forces_length. apply fold_min_le.
Qed.

(** Summing from a vector [acc] of three components or fewer is adding
    [acc] to the sum from the zeros. *)
Lemma fold_zip_add_from (gs : list (list R)) (acc : list R) :
  (List.length acc <= 3)%nat ->
  fold_left (fun net_force f => zip_add net_force f) gs acc
  = zip_add acc (forces.add_forces gs).
Proof.
  intros Hacc. unfold forces.add_forces. simpl of_int.
  induction gs as [|g gs IH] using rev_ind.
  - simpl. symmetry. apply zip_add_zeros. exact Hacc.
  - rewrite !fold_left_app. simpl. rewrite IH, zip_add_assoc. reflexivity.
Qed.

End RealSums.

(** ** Sums of forces on binary64 floats *)

Module FloatSums.

Local Open Scope float_scope.

Lemma SFadd_finite_comm (sx : bool) (mx : positive) (ex : Z) (sy : bool)
    (my : positive) (ey : Z) :
  SFadd prec emax (S754_finite sx mx ex) (S754_finite sy my ey)
  = SFadd prec emax (S754_finite sy my ey) (S754_finite sx mx ex).
Proof.
  unfold SFadd. rewrite (Z.min_comm ex ey), Z.add_comm. reflexivity.
Qed.

(** Two numbers added to a zero, in either order.  The zero matters: it
    turns a negative zero into a positive one. *)
Lemma SFadd_zero_swap (a b : spec_float) :
  SFadd prec emax (SFadd prec emax (S754_zero false) a) b
  = SFadd prec emax (SFadd prec emax (S754_zero false) b) a.
Proof.
  destruct a as [sa|sa| |sa ma ea], b as [sb|sb| |sb mb eb];
    try destruct sa; try destruct sb; try reflexivity;
    apply SFadd_finite_comm.
Qed.

Lemma float_add_zero_swap (a b : float) : 0 + a + b = 0 + b + a.
Proof.
  apply Prim2SF_inj. rewrite !add_spec. apply SFadd_zero_swap.
Qed.

Lemma zip_add_zeros_swap (zs f g : list float) :
  Forall (fun z => z = 0) zs ->
  zip_add (zip_add zs f) g = zip_add (zip_add zs g) f.
Proof.
  intros Hzs. revert f g.
  induction Hzs as [|z zs -> _ IH]; intros f g.
  - reflexivity.
  - destruct f as [|a f], g as [|b g]; try reflexivity.
    change (zip_add (zip_add (0 :: zs) (a :: f)) (b :: g))
        with ((0 + a + b) :: zip_add (zip_add zs f) g).
    change (zip_add (zip_add (0 :: zs) (b :: g)) (a :: f))
      with ((0 + b + a) :: zip_add (zip_add zs g) f).
    rewrite IH, float_add_zero_swap. reflexivity.
Qed.

End FloatSums.

(** X10.  On the binary64 floats of the program the first two forces of a
    sum can change places, whatever numbers and however many they hold:
    [add_forces] of [f], [g] and the rest is that of [g], [f] and the rest.
    A force further back cannot: of [1e16], [1] and [-1e16] along the first
    axis the sum is [0] in this order and [1] with the last two exchanged.
    In exact arithmetic the sum does not depend on the order at all. *)
Theorem add_forces_in_either_order :
  (forall (f g : list float) (rest : list (list float)),
      forces.add_forces (f :: g :: rest) = forces.add_forces (g :: f :: rest)) /\
  (forces.add_forces [[1e16; 0; 0]; [1; 0; 0]; [-1e16; 0; 0]]%float
   = [0; 0; 0]%float /\
   forces.add_forces [[1e16; 0; 0]; [-1e16; 0; 0]; [1; 0; 0]]%float
   = [1; 0; 0]%float) /\
  (forall fs gs : list (list R),
      Permutation.Permutation fs gs ->
      forces.add_forces fs = forces.add_forces gs).
Proof.
  split; [|split].
  - intros f g rest. unfold forces.add_forces. simpl fold_left.
    f_equal. apply FloatSums.zip_add_zeros_swap.
    repeat constructor.
  - split; reflexivity.
  - intros fs gs Hperm. unfold forces.add_forces.
    apply RealSums.fold_zip_add_perm. exact Hperm.
Qed.

Lemma add_forces_in_either_order_witness :
  forces.add_forces [[1; 2; 3]; [4; 5]; [6; 7; 8; 9]]%R
  = forces.add_forces [[6; 7; 8; 9]; [1; 2; 3]; [4; 5]]%R.
Proof.
  apply (proj2 (proj2 add_forces_in_either_order)
           [[1; 2; 3]; [4; 5]; [6; 7; 8; 9]]%R
           [[6; 7; 8; 9]; [1; 2; 3]; [4; 5]]%R).
  apply Permutation.Permutation_sym.
  apply (Permutation.Permutation_cons_app [[1; 2; 3]; [4; 5]]%R []
                                          [6; 7; 8; 9]%R).
  rewrite app_nil_r. apply Permutation.Permutation_refl.
Defined.

(** X11.  Gravity enters the second component of the net force and no
    other.  On the binary64 floats of the program [calculate_net_force]
    and [calculate_drag_and_magnus] raise the same exception or both
    return; their results are equally long and the same float in every
    component but the second.  In exact arithmetic the sum of two lists of
    forces put together is the sum of their two sums, and
    [calculate_net_force] is gravity added to what
    [calculate_drag_and_magnus] returns. *)
Theorem net_force_adds_gravity_to_the_second_component :
  (forall (mass : float) (velocity : list float)
          (area drag_coefficient : float) (spin : list float),
      match
        forces.calculate_net_force mass velocity area drag_coefficient spin,
        forces.calculate_drag_and_magnus velocity area drag_coefficient spin
      with
      | Ok net, Ok dm =>
          List.length net = List.length dm /\
          forall i : nat, i <> 1%nat -> nth_error net i = nth_error dm i
      | Raise e, Raise e' => e = e'
      | _, _ => False
      end) /\
  (forall fs gs : list (list R),
      forces.add_forces (fs ++ gs)
      = zip_add (forces.add_forces fs) (forces.add_forces gs)) /\
  (forall (mass : R) (velocity : list R) (area drag_coefficient : R)
          (spin : list R),
      forces.calculate_net_force mass velocity area drag_coefficient spin
      = (drag_and_magnus <-
           forces.calculate_drag_and_magnus velocity area drag_coefficient spin ;;
         Ok (zip_add (forces.calculate_gravity mass) drag_and_magnus))).
Proof.
  assert (Happ : forall fs gs : list (list R),
             forces.add_forces (fs ++ gs)
             = zip_add (forces.add_forces fs) (forces.add_forces gs)).
  { intros fs gs. unfold forces.add_forces at 1. rewrite fold_left_app.
    apply RealSums.fold_zip_add_from. apply RealSums.add_forces_le_3. }
  split; [|split; [exact Happ|]].
  - intros mass velocity area drag_coefficient spin.
    unfold forces.calculate_net_force, forces.calculate_drag_and_magnus.
    destruct (forces.calculate_magnus velocity spin) as [magnus|e]; simpl;
      [|reflexivity].
    generalize (forces.calculate_drag velocity area drag_coefficient).
    intros drag. unfold forces.add_forces, forces.calculate_gravity. simpl.
    destruct drag as [|d0 [|d1 [|d2 drag]]];
      destruct magnus as [|m0 [|m1 [|m2 magnus]]];
      (split; [reflexivity|]); intros [|[|[|i]]] Hi;
      try reflexivity; congruence.
  - intros mass velocity area drag_coefficient spin.
    unfold forces.calculate_net_force, forces.calculate_drag_and_magnus.
    destruct (forces.calculate_magnus velocity spin) as [magnus|e]; simpl;
      [|reflexivity].
    f_equal.
    change [forces.calculate_gravity mass;
            forces.calculate_drag velocity area drag_coefficient; magnus]
      with ([forces.calculate_gravity mass]
              ++ [forces.calculate_drag velocity area drag_coefficient; magnus]).
    rewrite Happ. f_equal.
    unfold forces.add_forces, forces.calculate_gravity, zip_add. simpl.
    rewrite !Rplus_0_l. reflexivity.
Qed.

(** ** Gravity and the Magnus force *)

(** X12.  The weight points down the second axis and nowhere else.  On
    floats, for every mass, it is exactly the negated float product of g
    and the mass; in exact arithmetic its magnitude is [g * mass] for a
    mass that is not negative. *)
Theorem gravity_points_down :
  (forall mass : float,
      forces.calculate_gravity mass
      = [0%float; PrimFloat.opp (PrimFloat.mul 9.80665%float mass); 0%float]) /\
  (forall mass : R,
      (0 <= mass)%R ->
      forces.calculate_gravity mass = [0; - (9.80665 * mass); 0]%R /\
      forces.magnitude (forces.calculate_gravity mass) = (9.80665 * mass)%R).
Proof.
  split.
  - intros mass. unfold forces.calculate_gravity.
    change (mul (mul (of_int (-1)) forces.g) mass)
      with (PrimFloat.mul (PrimFloat.opp 9.80665%float) mass).
    rewrite float_mul_opp_l. reflexivity.
  - intros mass Hmass.
    assert (Hg : forces.calculate_gravity mass = [0; - (9.80665 * mass); 0]%R).
    { unfold forces.calculate_gravity, forces.g. simpl. unfold Real.lit. simpl.
      f_equal. f_equal. lra. }
    split; [exact Hg|]. rewrite Hg.
    unfold forces.magnitude. rewrite !RealForces.dot_cons, RealForces.dot_nil_l.
    replace (0 * 0 + (- (9.80665 * mass) * - (9.80665 * mass) + (0 * 0 + 0)))%R
      with ((9.80665 * mass) * (9.80665 * mass))%R by lra.
    change (sqrt ?x) with (R_sqrt.sqrt x).
    apply sqrt_square. lra.
Qed.

Lemma gravity_points_down_witness :
  forces.calculate_gravity 2%R = [0; - (9.80665 * 2); 0]%R /\
  forces.magnitude (forces.calculate_gravity 2%R) = (9.80665 * 2)%R.
Proof.
  apply (proj2 gravity_points_down 2%R). lra.
Defined.

(** ** The Magnus force of a ball without spin, or at rest *)

Module FloatMagnus.

Import FloatShapes.
Local Open Scope float_scope.

Lemma SFmul_bounded_zero (s : bool) (x : spec_float) (sz : bool) :
  bounded_signed s x ->
  SFmul prec emax x (S754_zero sz) = S754_zero (xorb s sz).
Proof. intros [->|(m & e & ->)]; reflexivity. Qed.

Lemma SFmul_zero_bounded (s : bool) (x : spec_float) (sz : bool) :
  bounded_signed s x ->
  SFmul prec emax (S754_zero sz) x = S754_zero (xorb sz s).
Proof. intros [->|(m & e & ->)]; reflexivity. Qed.

Lemma SFsub_zeros (s s' : bool) :
  SFeqb (SFsub prec emax (S754_zero s) (S754_zero s')) (S754_zero false) = true.
Proof. destruct s, s'; reflexivity. Qed.

(** [x * 0 - y * 0] and [0 * x - 0 * y], for finite [x] and [y]. *)
Lemma products_with_zero (x y : float) :
  FloatDrag.finite x -> FloatDrag.finite y ->
  (x * 0 - y * 0 =? 0) = true /\ (0 * x - 0 * y =? 0) = true.
Proof.
  intros Hx Hy.
  destruct (FloatDrag.finite_bounded x Hx) as [sx Hsx].
  destruct (FloatDrag.finite_bounded y Hy) as [sy Hsy].
  rewrite !eqb_spec, !sub_spec, !mul_spec.
  change (Prim2SF 0) with (S754_zero false). unfold SF64sub, SF64mul.
  rewrite (SFmul_bounded_zero sx _ false Hsx), (SFmul_bounded_zero sy _ false Hsy).
  rewrite (SFmul_zero_bounded sx _ false Hsx), (SFmul_zero_bounded sy _ false Hsy).
  split; apply SFsub_zeros.
Qed.

End FloatMagnus.

(** X13.  A ball without spin feels no Magnus force, and neither does a
    ball at rest: on the binary64 floats of the program, for a velocity of
    finite components and a spin of zeros, and for a velocity of zeros and
    a spin of finite components, the three components of
    [calculate_magnus] are [== 0].  At right angles to velocity and spin
    the computed force is up to rounding only: for the vectors of the
    docstring its dot product with the spin is [-6.9e-18].  In exact
    arithmetic the force is at right angles to both, and it is zero for a
    spin of zero and for a spin along the velocity. *)
Theorem magnus_without_spin_or_at_rest_is_zero :
  (forall x0 x1 x2 : float,
      FloatDrag.finite x0 -> FloatDrag.finite x1 -> FloatDrag.finite x2 ->
      (exists f : list float,
          forces.calculate_magnus [x0; x1; x2] [0; 0; 0]%float = Ok f /\
          List.length f = 3%nat /\
          Forall (fun c => PrimFloat.eqb c 0%float = true) f) /\
      (exists f : list float,
          forces.calculate_magnus [0; 0; 0]%float [x0; x1; x2] = Ok f /\
          List.length f = 3%nat /\
          Forall (fun c => PrimFloat.eqb c 0%float = true) f)) /\
  (exists f : list float,
      forces.calculate_magnus [42.0; -0.2; 1.3]%float [0.01; 0.02; 0.03]%float
      = Ok f /\
      forces.dot f [0.01; 0.02; 0.03]%float = (-6.9388939039072284e-18)%float) /\
  (forall v0 v1 v2 s0 s1 s2 k : R,
      (exists f : list R,
          forces.calculate_magnus [v0; v1; v2] [s0; s1; s2] = Ok f /\
          forces.dot f [v0; v1; v2] = 0%R /\
          forces.dot f [s0; s1; s2] = 0%R) /\
      forces.calculate_magnus [v0; v1; v2] [0; 0; 0]%R = Ok [0; 0; 0]%R /\
      forces.calculate_magnus [v0; v1; v2] [k * v0; k * v1; k * v2]%R
      = Ok [0; 0; 0]%R).
Proof.
  split; [|split].
  - intros x0 x1 x2 H0 H1 H2. split.
    + eexists. split; [reflexivity|]. split; [reflexivity|].
      repeat (apply Forall_cons;
              [apply FloatMagnus.products_with_zero; assumption|]).
      apply Forall_nil.
    + eexists. split; [reflexivity|]. split; [reflexivity|].
      repeat (apply Forall_cons;
              [apply FloatMagnus.products_with_zero; assumption|]).
      apply Forall_nil.
  - eexists. split; reflexivity.
  - intros v0 v1 v2 s0 s1 s2 k. split; [|split].
    + eexists. split; [reflexivity|].
      rewrite !RealForces.dot_cons, !RealForces.dot_nil_l. simpl.
      split; ring.
    + simpl. f_equal. f_equal; [ring|]. f_equal; [ring|]. f_equal. ring.
    + simpl. f_equal. f_equal; [ring|]. f_equal; [ring|]. f_equal. ring.
Qed.

Lemma magnus_without_spin_or_at_rest_is_zero_witness :
  exists f : list float,
    forces.calculate_magnus [42.0; -0.2; 1.3]%float [0; 0; 0]%float = Ok f /\
    List.length f = 3%nat /\
    Forall (fun c => PrimFloat.eqb c 0%float = true) f.
Proof.
  apply (proj1 (proj1 magnus_without_spin_or_at_rest_is_zero
                  42.0%float (-0.2)%float 1.3%float
                  eq_refl eq_refl eq_refl)).
Defined.

(** ** The plotter *)

Section GetAxis.
Context {T : Type}.

Import baseball_plotter.

Lemma get_axis_cons (a : list T) (l : list (list T)) (i : nat) :
  get_axis (a :: l) i
  = (x <- index a i ;; xs <- get_axis l i ;; Ok (x :: xs)).
Proof. reflexivity. Qed.

Lemma index_ok (a : list T) (i : nat) :
  (i < List.length a)%nat -> exists x, index a i = Ok x /\ nth_error a i = Some x.
Proof.
  intros Hi. unfold index.
  destruct (nth_error a i) as [x|] eqn:Hx.
  - exists x. split; reflexivity.
  - apply nth_error_None in Hx. lia.
Qed.

Lemma index_short (a : list T) (i : nat) :
  (List.length a <= i)%nat -> index a i = Raise IndexError.
Proof.
  intros Hi. unfold index. apply nth_error_None in Hi. rewrite Hi. reflexivity.
Qed.

Lemma get_axis_ok (l : list (list T)) (i : nat) :
  Forall (fun a => (i < List.length a)%nat) l ->
  exists xs, get_axis l i = Ok xs /\
             Forall2 (fun a x => nth_error a i = Some x) l xs.
Proof.
  induction 1 as [|a l Ha _ (xs & Hxs & Hall)].
  - exists []. split; [reflexivity|constructor].
  - destruct (index_ok a i Ha) as (x & Hx & Hnth).
    exists (x :: xs). rewrite get_axis_cons, Hx, Hxs. split; [reflexivity|].
    constructor; assumption.
Qed.

Lemma get_axis_raises (l : list (list T)) (i : nat) :
  Exists (fun a => (List.length a <= i)%nat) l ->
  get_axis l i = Raise IndexError.
Proof.
  induction 1 as [a l Ha|a l _ IH]; rewrite get_axis_cons.
  - rewrite (index_short a i Ha). reflexivity.
  - rewrite IH. destruct (index a i) as [x|e] eqn:Hx; simpl; [reflexivity|].
    unfold index in Hx. destruct (nth_error a i); [discriminate|].
    injection Hx as <-. reflexivity.
Qed.

Lemma get_axis_length (l : list (list T)) (i : nat) (xs : list T) :
  get_axis l i = Ok xs -> List.length xs = List.length l.
Proof.
  revert xs. induction l as [|a l IH]; intros xs.
  - intros [= <-]. reflexivity.
  - rewrite get_axis_cons. destruct (index a i); simpl; [|discriminate].
    destruct (get_axis l i) as [ys|]; simpl; [|discriminate].
    intros [= <-]. simpl. f_equal. apply IH. reflexivity.
Qed.

End GetAxis.

(** X14.  [get_axis(input_list, i)] returns the [i]-th element of every
    row, in order and as many as there are rows, when every row has more
    than [i] elements; one row with [i] elements or fewer makes it raise
    IndexError. *)
Theorem get_axis_reads_a_column
    (T : Type) (input_list : list (list T)) (i : nat) :
  (Forall (fun a => (i < List.length a)%nat) input_list ->
   exists xs : list T,
     baseball_plotter.get_axis input_list i = Ok xs /\
     List.length xs = List.length input_list /\
     Forall2 (fun a x => nth_error a i = Some x) input_list xs) /\
  (Exists (fun a => (List.length a <= i)%nat) input_list ->
   baseball_plotter.get_axis input_list i = Raise IndexError).
Proof.
  split.
  - intros Hall. destruct (get_axis_ok input_list i Hall) as (xs & Hxs & Hcol).
    exists xs. split; [exact Hxs|]. split; [|exact Hcol].
    exact (get_axis_length input_list i xs Hxs).
  - apply get_axis_raises.
Qed.

Lemma get_axis_reads_a_column_witness :
  exists xs : list nat,
    baseball_plotter.get_axis [[1; 2; 3]; [4; 5; 6]; [7; 8; 9]]%nat 1 = Ok xs /\
    List.length xs = 3%nat /\
    Forall2 (fun a x => nth_error a 1 = Some x)
            [[1; 2; 3]; [4; 5; 6]; [7; 8; 9]]%nat xs.
Proof.
  apply (proj1 (get_axis_reads_a_column nat
                  [[1; 2; 3]; [4; 5; 6]; [7; 8; 9]]%nat 1)).
  repeat constructor.
Defined.

(** X15.  The three axes of a list of rows of three components give the
    rows back: the [j]-th row is the [j]-th element of axis 0, of axis 1
    and of axis 2. *)
Theorem get_axis_three_axes_give_the_rows_back
    (T : Type) (rows : list (list T)) :
  Forall (fun p => List.length p = 3%nat) rows ->
  exists xs ys zs : list T,
    baseball_plotter.get_axis rows 0 = Ok xs /\
    baseball_plotter.get_axis rows 1 = Ok ys /\
    baseball_plotter.get_axis rows 2 = Ok zs /\
    rows = map (fun xyz => [fst xyz; fst (snd xyz); snd (snd xyz)])
               (combine xs (combine ys zs)).
Proof.
  induction 1 as [|p rows Hp _ (xs & ys & zs & Hx & Hy & Hz & Hrows)].
  - exists [], [], []. repeat split.
  - destruct p as [|x [|y [|z [|]]]]; try discriminate.
    exists (x :: xs), (y :: ys), (z :: zs).
    rewrite !get_axis_cons, Hx, Hy, Hz. simpl.
    repeat split. f_equal. exact Hrows.
Qed.

Lemma get_axis_three_axes_give_the_rows_back_witness :
  exists xs ys zs : list float,
    baseball_plotter.get_axis (pitches.trail Runs.slow_ball_thrown) 0 = Ok xs /\
    baseball_plotter.get_axis (pitches.trail Runs.slow_ball_thrown) 1 = Ok ys /\
    baseball_plotter.get_axis (pitches.trail Runs.slow_ball_thrown) 2 = Ok zs /\
    pitches.trail Runs.slow_ball_thrown
    = map (fun xyz => [fst xyz; fst (snd xyz); snd (snd xyz)])
          (combine xs (combine ys zs)).
Proof.
  apply (get_axis_three_axes_give_the_rows_back float
           (pitches.trail Runs.slow_ball_thrown)).
  repeat constructor.
Defined.

Section AddToPlot.
Context {A : Type} `{Num A}.

Import baseball_plotter.

(** The label under which an artist enters the legend. *)
Definition artist_label (a : Artist A) : option string :=
  match a with
  | Line2D _ _ _ label _ => Some label
  | AxHLine _ _ _ label _ => label
  end.

Lemma plot_ok (ax : Axes A) (x y : list A) (color label : string) (w : A) :
  List.length x = List.length y ->
  plot ax x y color label w
  = Ok {| ylim := ylim ax; xlabel := xlabel ax; ylabel := ylabel ax;
          title := title ax;
          artists := artists ax ++ [Line2D x y color label w];
          legend := legend ax |}.
Proof.
  intros Hlen. unfold plot. rewrite Hlen, Nat.eqb_refl. reflexivity.
Qed.

Lemma Forall_ge_3 (t : list (list A)) (i : nat) :
  (i < 3)%nat ->
  Forall (fun p => (3 <= List.length p)%nat) t ->
  Forall (fun a => (i < List.length a)%nat) t.
Proof.
  intros Hi. apply Forall_impl. intros a Ha. lia.
Qed.

(** The labels that [add_to_plot] adds to the two views. *)
Lemma add_to_plot_labels (self : BaseballPlotter A) (pitch : pitches.Pitch A) :
  Forall (fun p => (3 <= List.length p)%nat) (pitches.trail pitch) ->
  exists self' : BaseballPlotter A,
    add_to_plot self pitch = (self', Ok tt) /\
    map artist_label (artists (axes_1 self'))
    = map artist_label (artists (axes_1 self)) ++ [Some (pitches.label pitch)] /\
    map artist_label (artists (axes_2 self'))
    = map artist_label (artists (axes_2 self)) ++ [Some (pitches.label pitch)].
Proof.
  intros Ht.
  destruct (get_axis_ok _ 0 (Forall_ge_3 _ 0 ltac:(lia) Ht)) as (xs & Hxs & _).
  destruct (get_axis_ok _ 1 (Forall_ge_3 _ 1 ltac:(lia) Ht)) as (ys & Hys & _).
  destruct (get_axis_ok _ 2 (Forall_ge_3 _ 2 ltac:(lia) Ht)) as (zs & Hzs & _).
  pose proof (get_axis_length _ _ _ Hxs) as Lx.
  pose proof (get_axis_length _ _ _ Hys) as Ly.
  pose proof (get_axis_length _ _ _ Hzs) as Lz.
  eexists. unfold add_to_plot. rewrite Hxs, Hys, Hzs. simpl.
  rewrite plot_ok by congruence. simpl.
  rewrite plot_ok by congruence.
  split; [reflexivity|]. simpl. rewrite !map_app. split; reflexivity.
Qed.

End AddToPlot.

(** X16.  [add_to_plot] of a Pitch whose recorded positions all have three
    components or more raises nothing and adds exactly one line to each of
    the two views, with the color and the label of the Pitch: depth
    against height in the first and depth against width in the second,
    each with one point for every position of the trail, and the settings
    of the figure left as they were. *)
Theorem add_to_plot_draws_both_views
    (A : Type) (N : Num A) (self : baseball_plotter.BaseballPlotter A)
    (pitch : pitches.Pitch A) :
  Forall (fun p => (3 <= List.length p)%nat) (pitches.trail pitch) ->
  exists (xs ys zs : list A) (self' : baseball_plotter.BaseballPlotter A),
    baseball_plotter.add_to_plot self pitch = (self', Ok tt) /\
    baseball_plotter.get_axis (pitches.trail pitch) 0 = Ok xs /\
    baseball_plotter.get_axis (pitches.trail pitch) 1 = Ok ys /\
    baseball_plotter.get_axis (pitches.trail pitch) 2 = Ok zs /\
    List.length xs = List.length (pitches.trail pitch) /\
    baseball_plotter.axes_1 self'
    = {| baseball_plotter.ylim := baseball_plotter.ylim (baseball_plotter.axes_1 self);
         baseball_plotter.xlabel := baseball_plotter.xlabel (baseball_plotter.axes_1 self);
         baseball_plotter.ylabel := baseball_plotter.ylabel (baseball_plotter.axes_1 self);
         baseball_plotter.title := baseball_plotter.title (baseball_plotter.axes_1 self);
         baseball_plotter.artists :=
           baseball_plotter.artists (baseball_plotter.axes_1 self)
           ++ [baseball_plotter.Line2D xs ys (pitches.color pitch)
                 (pitches.label pitch) baseball_plotter.lw];
         baseball_plotter.legend := baseball_plotter.legend (baseball_plotter.axes_1 self) |} /\
    baseball_plotter.axes_2 self'
    = {| baseball_plotter.ylim := baseball_plotter.ylim (baseball_plotter.axes_2 self);
         baseball_plotter.xlabel := baseball_plotter.xlabel (baseball_plotter.axes_2 self);
         baseball_plotter.ylabel := baseball_plotter.ylabel (baseball_plotter.axes_2 self);
         baseball_plotter.title := baseball_plotter.title (baseball_plotter.axes_2 self);
         baseball_plotter.artists :=
           baseball_plotter.artists (baseball_plotter.axes_2 self)
           ++ [baseball_plotter.Line2D xs zs (pitches.color pitch)
                 (pitches.label pitch) baseball_plotter.lw];
         baseball_plotter.legend := baseball_plotter.legend (baseball_plotter.axes_2 self) |} /\
    baseball_plotter.facecolor self' = baseball_plotter.facecolor self /\
    baseball_plotter.shown self' = baseball_plotter.shown self.
Proof.
  intros Ht.
  destruct (get_axis_ok _ 0 (Forall_ge_3 _ 0 ltac:(lia) Ht)) as (xs & Hxs & _).
  destruct (get_axis_ok _ 1 (Forall_ge_3 _ 1 ltac:(lia) Ht)) as (ys & Hys & _).
  destruct (get_axis_ok _ 2 (Forall_ge_3 _ 2 ltac:(lia) Ht)) as (zs & Hzs & _).
  pose proof (get_axis_length _ _ _ Hxs) as Lx.
  pose proof (get_axis_length _ _ _ Hys) as Ly.
  pose proof (get_axis_length _ _ _ Hzs) as Lz.
  exists xs, ys, zs. eexists.
  unfold baseball_plotter.add_to_plot. rewrite Hxs, Hys, Hzs. simpl.
  rewrite plot_ok by congruence. simpl.
  rewrite plot_ok by congruence.
  repeat split; try reflexivity. exact Lx.
Qed.

Lemma add_to_plot_draws_both_views_witness :
  exists (xs ys zs : list float) (self' : baseball_plotter.BaseballPlotter float),
    baseball_plotter.add_to_plot baseball_plotter.__init__ Runs.slow_ball_thrown
    = (self', Ok tt) /\
    baseball_plotter.get_axis (pitches.trail Runs.slow_ball_thrown) 0 = Ok xs /\
    baseball_plotter.get_axis (pitches.trail Runs.slow_ball_thrown) 1 = Ok ys /\
    baseball_plotter.get_axis (pitches.trail Runs.slow_ball_thrown) 2 = Ok zs /\
    List.length xs = List.length (pitches.trail Runs.slow_ball_thrown) /\
    baseball_plotter.axes_1 self'
    = {| baseball_plotter.ylim :=
           baseball_plotter.ylim (baseball_plotter.axes_1 baseball_plotter.__init__);
         baseball_plotter.xlabel :=
           baseball_plotter.xlabel (baseball_plotter.axes_1 baseball_plotter.__init__);
         baseball_plotter.ylabel :=
           baseball_plotter.ylabel (baseball_plotter.axes_1 baseball_plotter.__init__);
         baseball_plotter.title :=
           baseball_plotter.title (baseball_plotter.axes_1 baseball_plotter.__init__);
         baseball_plotter.artists :=
           baseball_plotter.artists (baseball_plotter.axes_1 baseball_plotter.__init__)
           ++ [baseball_plotter.Line2D xs ys (pitches.color Runs.slow_ball_thrown)
                 (pitches.label Runs.slow_ball_thrown) baseball_plotter.lw];
         baseball_plotter.legend :=
           baseball_plotter.legend (baseball_plotter.axes_1 baseball_plotter.__init__) |} /\
    baseball_plotter.axes_2 self'
    = {| baseball_plotter.ylim :=
           baseball_plotter.ylim (baseball_plotter.axes_2 baseball_plotter.__init__);
         baseball_plotter.xlabel :=
           baseball_plotter.xlabel (baseball_plotter.axes_2 baseball_plotter.__init__);
         baseball_plotter.ylabel :=
           baseball_plotter.ylabel (baseball_plotter.axes_2 baseball_plotter.__init__);
         baseball_plotter.title :=
           baseball_plotter.title (baseball_plotter.axes_2 baseball_plotter.__init__);
         baseball_plotter.artists :=
           baseball_plotter.artists (baseball_plotter.axes_2 baseball_plotter.__init__)
           ++ [baseball_plotter.Line2D xs zs (pitches.color Runs.slow_ball_thrown)
                 (pitches.label Runs.slow_ball_thrown) baseball_plotter.lw];
         baseball_plotter.legend :=
           baseball_plotter.legend (baseball_plotter.axes_2 baseball_plotter.__init__) |} /\
    baseball_plotter.facecolor self'
    = baseball_plotter.facecolor baseball_plotter.__init__ /\
    baseball_plotter.shown self' = baseball_plotter.shown baseball_plotter.__init__.
Proof.
  apply (add_to_plot_draws_both_views float float_Num
           baseball_plotter.__init__ Runs.slow_ball_thrown).
  repeat constructor.
Defined.

(** X17.  [add_to_plot] of a Pitch whose recorded positions all have two
    components, but not all three, raises IndexError after the side view
    has been drawn: the first view has its new line, the second is as it
    was.  When a position has fewer than two components, IndexError is
    raised with the figure as it was. *)
Theorem add_to_plot_of_a_flat_trail
    (A : Type) (N : Num A) (self : baseball_plotter.BaseballPlotter A)
    (pitch : pitches.Pitch A) :
  (Forall (fun p => (2 <= List.length p)%nat) (pitches.trail pitch) ->
   Exists (fun p => (List.length p <= 2)%nat) (pitches.trail pitch) ->
   exists (xs ys : list A) (self' : baseball_plotter.BaseballPlotter A),
     baseball_plotter.add_to_plot self pitch = (self', Raise IndexError) /\
     baseball_plotter.artists (baseball_plotter.axes_1 self')
     = baseball_plotter.artists (baseball_plotter.axes_1 self)
       ++ [baseball_plotter.Line2D xs ys (pitches.color pitch)
             (pitches.label pitch) baseball_plotter.lw] /\
     baseball_plotter.axes_2 self' = baseball_plotter.axes_2 self) /\
  (Exists (fun p => (List.length p <= 1)%nat) (pitches.trail pitch) ->
   baseball_plotter.add_to_plot self pitch = (self, Raise IndexError)).
Proof.
  split.
  - intros Hall Hex.
    assert (H0 : Forall (fun a => (0 < List.length a)%nat) (pitches.trail pitch))
      by (revert Hall; apply Forall_impl; intros a Ha; lia).
    assert (H1 : Forall (fun a => (1 < List.length a)%nat) (pitches.trail pitch))
      by (revert Hall; apply Forall_impl; intros a Ha; lia).
    destruct (get_axis_ok _ 0 H0) as (xs & Hxs & _).
    destruct (get_axis_ok _ 1 H1) as (ys & Hys & _).
    pose proof (get_axis_length _ _ _ Hxs) as Lx.
    pose proof (get_axis_length _ _ _ Hys) as Ly.
    exists xs, ys. eexists.
    unfold baseball_plotter.add_to_plot.
    rewrite Hxs, Hys, (get_axis_raises _ 2 Hex). simpl.
    rewrite plot_ok by congruence. simpl. repeat split.
  - intros Hex. unfold baseball_plotter.add_to_plot.
    destruct (baseball_plotter.get_axis (pitches.trail pitch) 0) as [xs|e] eqn:Hxs.
    + rewrite (get_axis_raises _ 1 Hex). reflexivity.
    + simpl. f_equal.
      destruct (Forall_Exists_dec (fun a => (0 < List.length a)%nat)
                  (fun a => lt_dec 0 (List.length a)) (pitches.trail pitch))
        as [Hall|Hshort].
      * destruct (get_axis_ok _ 0 Hall) as (xs & Hxs' & _). congruence.
      * assert (Hraise : baseball_plotter.get_axis (pitches.trail pitch) 0
                         = Raise IndexError).
        { apply get_axis_raises. revert Hshort. apply Exists_impl.
          intros a Ha. lia. }
        congruence.
Qed.

Lemma add_to_plot_of_a_flat_trail_witness :
  exists (xs ys : list float) (self' : baseball_plotter.BaseballPlotter float),
    baseball_plotter.add_to_plot baseball_plotter.__init__ Runs.flat_ball
    = (self', Raise IndexError) /\
    baseball_plotter.artists (baseball_plotter.axes_1 self')
    = baseball_plotter.artists (baseball_plotter.axes_1 baseball_plotter.__init__)
      ++ [baseball_plotter.Line2D xs ys (pitches.color Runs.flat_ball)
            (pitches.label Runs.flat_ball) baseball_plotter.lw] /\
    baseball_plotter.axes_2 self'
    = baseball_plotter.axes_2 baseball_plotter.__init__.
Proof.
  apply (proj1 (add_to_plot_of_a_flat_trail float float_Num
                  baseball_plotter.__init__ Runs.flat_ball)).
  - repeat constructor.
  - apply Exists_cons_hd. simpl. lia.
Defined.

(** ** The main program *)

Section PlayBall.
Context {A : Type} `{Num A}.

Import pitches.

(** A well-shaped Pitch in three dimensions, as the classes of the
    predefined pitches make them. *)
Definition ready (p : Pitch A) : Prop :=
  well_shaped p /\
  List.length (position p) = 3%nat /\
  Forall (fun q => List.length q = 3%nat) (trail p).

Lemma throw_ready (fuel : nat) (p : Pitch A) (distance dt : A)
    (r : result (Pitch A)) :
  ready p ->
  throw fuel p distance dt = Some r ->
  exists p',
    r = Ok p' /\
    Forall (fun q => (3 <= List.length q)%nat) (trail p') /\
    List.length (position p') = 3%nat /\
    label p' = label p /\
    color p' = color p /\
    in_flight p' distance = Ok false.
Proof.
  intros (Hshape & Hp & Ht) Hthrow.
  destruct r as [p'|e]; cycle 1.
  { exfalso. revert Hthrow. unfold throw.
    apply throw_loop_never_raises; [reflexivity|exact Hshape]. }
  exists p'. split; [reflexivity|].
  destruct (throw_loop_sound _ _ _ _ _ _ Hthrow) as (k & _ & Hsteps & Hstop & _).
  set (f_gravity := forces.calculate_gravity (mass p)) in *.
  assert (Hg : List.length f_gravity = 3%nat) by reflexivity.
  destruct (steps_three_components k f_gravity dt p p' Hg Hshape Hp Ht Hsteps)
    as (Hp' & Ht').
  destruct (steps_frame _ _ _ _ _ Hsteps)
    as (_ & _ & _ & _ & _ & _ & Hlabel & Hcolor & _).
  repeat split; try assumption.
  revert Ht'. apply Forall_impl. intros q ->. lia.
Qed.

Lemma my_pitches_ready :
  eqb (class_mass (A:=A)) (of_int 0) = false ->
  Forall ready (play_ball.my_pitches (A:=A)).
Proof.
  intros Hm. unfold play_ball.my_pitches.
  repeat (apply Forall_cons;
          [repeat split; simpl; try lia; try exact Hm; repeat constructor|]).
  apply Forall_nil.
Qed.

Lemma play_loop_draws (fuel : nat) (increment : A)
    (ps : list (Pitch A))
    (my_plotter my_plotter' : baseball_plotter.BaseballPlotter A)
    (r : result unit) :
  Forall ready ps ->
  play_ball.play_loop fuel increment my_plotter ps = Some (my_plotter', r) ->
  r = Ok tt /\
  map artist_label (baseball_plotter.artists (baseball_plotter.axes_1 my_plotter'))
  = map artist_label (baseball_plotter.artists (baseball_plotter.axes_1 my_plotter))
    ++ map (fun p => Some (label p)) ps /\
  map artist_label (baseball_plotter.artists (baseball_plotter.axes_2 my_plotter'))
  = map artist_label (baseball_plotter.artists (baseball_plotter.axes_2 my_plotter))
    ++ map (fun p => Some (label p)) ps.
Proof.
  intros Hps. revert my_plotter.
  induction Hps as [|p ps Hp _ IH]; intros my_plotter; simpl.
  - intros [= <- <-]. rewrite !app_nil_r. repeat split.
  - destruct (throw fuel p play_ball.distance increment) as [r0|] eqn:Hthrow;
      [|discriminate].
    destruct (throw_ready _ _ _ _ _ Hp Hthrow)
      as (p' & -> & Ht' & _ & Hlabel & _ & _).
    destruct (add_to_plot_labels my_plotter p' Ht')
      as (plotter1 & Hadd & Hax1 & Hax2).
    rewrite Hadd. intros Hloop.
    destruct (IH _ Hloop) as (Hr & H1 & H2).
    split; [exact Hr|].
    rewrite H1, H2, Hax1, Hax2, <- !app_assoc. simpl. rewrite Hlabel.
    split; reflexivity.
Qed.

Lemma throw_all_ready (fuel : nat) (increment : A) (ps : list (Pitch A))
    (r : result (list (Pitch A))) :
  Forall ready ps ->
  play_ball.throw_all fuel increment ps = Some r ->
  exists ps',
    r = Ok ps' /\
    map label ps' = map label ps /\
    Forall (fun p' => in_flight p' play_ball.distance = Ok false /\
                      List.length (position p') = 3%nat) ps'.
Proof.
  intros Hps. revert r.
  induction Hps as [|p ps Hp _ IH]; intros r; simpl.
  - intros [= <-]. exists []. repeat split. constructor.
  - destruct (throw fuel p play_ball.distance increment) as [r0|] eqn:Hthrow;
      [|discriminate].
    destruct (throw_ready _ _ _ _ _ Hp Hthrow)
      as (p' & -> & _ & Hlen & Hlabel & _ & Hstop).
    destruct (play_ball.throw_all fuel increment ps) as [r1|]; [|discriminate].
    destruct (IH r1 eq_refl) as (ps' & -> & Hlabels & Hall).
    intros [= <-]. exists (p' :: ps'). split; [reflexivity|].
    split; [simpl; congruence|].
    constructor; [split; assumption|exact Hall].
Qed.

End PlayBall.

(** X18.  Where the mass of the class is not [== 0], [lets_play] raises
    nothing, whatever the increment: when it ends, each view holds the
    lines of the seven pitches in the order of [my_pitches], under their
    labels, then the two lines of the strike zone, the first of them under
    the label of the zone; the legends are set and the figure is shown. *)
Theorem lets_play_draws_seven_pitches
    (A : Type) (N : Num A) (fuel : nat) (increment : A)
    (my_plotter : baseball_plotter.BaseballPlotter A) (r : result unit) :
  eqb (pitches.class_mass (A:=A)) (of_int 0) = false ->
  play_ball.lets_play fuel increment = Some (my_plotter, r) ->
  r = Ok tt /\
  map artist_label (baseball_plotter.artists (baseball_plotter.axes_1 my_plotter))
  = [Some "Knuckleball"; Some "4-Seam Fastball"; Some "2-Seam Fastball";
     Some "Slider"; Some "Curveball"; Some "Changeup"; Some "Screwball";
     Some "Strike zone"; None]%string /\
  map artist_label (baseball_plotter.artists (baseball_plotter.axes_2 my_plotter))
  = [Some "Knuckleball"; Some "4-Seam Fastball"; Some "2-Seam Fastball";
     Some "Slider"; Some "Curveball"; Some "Changeup"; Some "Screwball";
     Some "Strike zone"; None]%string /\
  baseball_plotter.legend (baseball_plotter.axes_1 my_plotter)
  = Some "lower left"%string /\
  baseball_plotter.legend (baseball_plotter.axes_2 my_plotter)
  = Some "upper left"%string /\
  baseball_plotter.shown my_plotter = true.
Proof.
  intros Hm. unfold play_ball.lets_play.
  destruct (play_ball.play_loop fuel increment baseball_plotter.__init__
              play_ball.my_pitches) as [[plotter1 r1]|] eqn:Hloop;
    [|discriminate].
  destruct (play_loop_draws _ _ _ _ _ _ (my_pitches_ready Hm) Hloop)
    as (-> & H1 & H2).
  intros [= <- <-]. simpl.
  rewrite !map_app, H1, H2. repeat split.
Qed.

(** X19.  Where the mass of the class is not [== 0], [just_throw] raises
    nothing, whatever the increment: when it ends, the seven pitches are
    there in their order, each with a position of three components at
    which the test of the loop fails for the distance of 18. *)
Theorem just_throw_throws_all_seven
    (A : Type) (N : Num A) (fuel : nat) (increment : A)
    (r : result (list (pitches.Pitch A))) :
  eqb (pitches.class_mass (A:=A)) (of_int 0) = false ->
  play_ball.just_throw fuel increment = Some r ->
  exists ps : list (pitches.Pitch A),
    r = Ok ps /\
    map (@pitches.label A) ps
    = ["Knuckleball"; "4-Seam Fastball"; "2-Seam Fastball"; "Slider";
       "Curveball"; "Changeup"; "Screwball"]%string /\
    Forall (fun p => pitches.in_flight p play_ball.distance = Ok false /\
                     List.length (pitches.position p) = 3%nat) ps.
Proof.
  intros Hm Hthrow.
  destruct (throw_all_ready _ _ _ _ (my_pitches_ready Hm) Hthrow)
    as (ps & -> & Hlabels & Hall).
  exists ps. split; [reflexivity|]. split; [|exact Hall].
  rewrite Hlabels. reflexivity.
Qed.

Lemma lets_play_draws_seven_pitches_witness :
  Ok tt = Ok tt /\
  map artist_label
      (baseball_plotter.artists (baseball_plotter.axes_1 MoreRuns.figure_of_lets_play))
  = [Some "Knuckleball"; Some "4-Seam Fastball"; Some "2-Seam Fastball";
     Some "Slider"; Some "Curveball"; Some "Changeup"; Some "Screwball";
     Some "Strike zone"; None]%string /\
  map artist_label
      (baseball_plotter.artists (baseball_plotter.axes_2 MoreRuns.figure_of_lets_play))
  = [Some "Knuckleball"; Some "4-Seam Fastball"; Some "2-Seam Fastball";
     Some "Slider"; Some "Curveball"; Some "Changeup"; Some "Screwball";
     Some "Strike zone"; None]%string /\
  baseball_plotter.legend (baseball_plotter.axes_1 MoreRuns.figure_of_lets_play)
  = Some "lower left"%string /\
  baseball_plotter.legend (baseball_plotter.axes_2 MoreRuns.figure_of_lets_play)
  = Some "upper left"%string /\
  baseball_plotter.shown MoreRuns.figure_of_lets_play = true.
Proof.
  apply (lets_play_draws_seven_pitches float float_Num 100 (lit 1 2)
           MoreRuns.figure_of_lets_play (Ok tt)).
  - reflexivity.
  - vm_compute. reflexivity.
Defined.

Lemma just_throw_throws_all_seven_witness :
  exists ps : list (pitches.Pitch float),
    Ok MoreRuns.pitches_of_just_throw = Ok ps /\
    map (@pitches.label float) ps
    = ["Knuckleball"; "4-Seam Fastball"; "2-Seam Fastball"; "Slider";
       "Curveball"; "Changeup"; "Screwball"]%string /\
    Forall (fun p => pitches.in_flight p play_ball.distance = Ok false /\
                     List.length (pitches.position p) = 3%nat) ps.
Proof.
  apply (just_throw_throws_all_seven float float_Num 100 (lit 1 2)
           (Ok MoreRuns.pitches_of_just_throw)).
  - reflexivity.
  - vm_compute. reflexivity.
Defined.

(** ** The regression formulas of quick_plot *)

Section ElementByElement.
Context {A : Type} `{Num A}.

(** One element of [f1(x)], and one of the [y] of [f2]. *)
Definition line (xi : A) : A :=
  sub (mul (lit 1257049 10) xi) (lit 5922626 8).

Definition quadratic (xi : A) : A :=
  add (sub (lit 4037875 7) (mul (lit 3047912 10) xi))
      (mul (mul (lit 3598094 6) (div (of_int 1) (of_int (10 ^ 8))))
           (mul xi xi)).

Lemma f1_map (x : list A) : quick_plot.f1 x = map line x.
Proof. unfold quick_plot.f1. rewrite map_map. reflexivity. Qed.

Lemma f2_map (x : list A) :
  quick_plot.f2 x = map (fun xi => quick_plot.maximum (quadratic xi) (line xi)) x.
Proof.
  unfold quick_plot.f2. rewrite f1_map.
  induction x as [|xi x IH]; [reflexivity|].
  simpl. unfold zip_add in *. simpl. f_equal. exact IH.
Qed.

End ElementByElement.

Module FloatPlot.

Local Open Scope float_scope.

(** [maximum] is not below its second argument, unless it is
    not-a-number. *)
Lemma maximum_above (a b : float) :
  (b <=? quick_plot.maximum a b) = true \/
  (quick_plot.maximum a b =? quick_plot.maximum a b) = false.
Proof.
  unfold quick_plot.maximum, geb.
  change (@leb float float_Num) with PrimFloat.leb.
  change (@eqb float float_Num) with PrimFloat.eqb.
  destruct (b <=? a) eqn:Hba; simpl.
  - left. exact Hba.
  - destruct (a =? a) eqn:Ha; simpl.
    + destruct (b =? b) eqn:Hb; [left|right; reflexivity].
      rewrite leb_spec. rewrite eqb_spec in Hb. unfold SFleb, SFeqb in *.
      destruct (SFcompare (Prim2SF b) (Prim2SF b)) as [[ | | ]|];
        try discriminate. reflexivity.
    + right. exact Ha.
Qed.

(** The test of one plotted point [i]: between 1195 and 10769 the curve
    is the line, elsewhere it is the quadratic, strictly above the line. *)
Definition point_ok (i : Z) : bool :=
  let xi := Float64.of_int i in
  let q := quick_plot.maximum (quadratic xi) (line xi) in
  if (1195 <=? xi) && (xi <=? 10769)
  then PrimFloat.Leibniz.eqb q (line xi)
  else PrimFloat.Leibniz.eqb q (quadratic xi) && (line xi <? q).

(** [p] on the [len] integers from [lo] on. *)
Fixpoint all_from (lo : Z) (len : nat) (p : Z -> bool) : bool :=
  match len with
  | O => true
  | S len' => if p lo then all_from (lo + 1) len' p else false
  end.

Lemma all_from_spec (len : nat) (p : Z -> bool) (lo i : Z) :
  all_from lo len p = true ->
  (lo <= i < lo + Z.of_nat len)%Z -> p i = true.
Proof.
  revert lo. induction len as [|len IH]; intros lo; simpl all_from.
  - lia.
  - destruct (p lo) eqn:Hlo; [|discriminate].
    intros Hrest Hi. destruct (Z.eq_dec i lo) as [->|Hne]; [exact Hlo|].
    apply (IH (lo + 1)%Z Hrest). lia.
Qed.

Lemma points_ok : all_from 0 (Z.to_nat 50000) point_ok = true.
Proof. vm_compute. reflexivity. Qed.

Lemma xrange_elements (xi : float) :
  In xi quick_plot.xrange ->
  exists i : Z, (0 <= i < 50000)%Z /\ xi = Float64.of_int i.
Proof.
  unfold quick_plot.xrange. rewrite in_map_iff.
  intros (n & <- & Hn). apply in_seq in Hn.
  exists (Z.of_nat n). split; [lia|reflexivity].
Qed.

End FloatPlot.

(** X20.  The curve of [f2] that the script plots.  [f2] works element by
    element, on an array of any number system: it keeps the length, and
    the curve of two arrays put together is the two curves put together.
    On binary64 floats no element of [f2(x)] is below that of [f1(x)],
    unless it is not-a-number.  And on the 50000 points of the script the
    curve of [f2] is the line of [f1] from 1195 to 10769, and the
    quadratic, strictly above the line, before and after. *)
Theorem f2_is_the_line_in_the_middle :
  (forall (A : Type) (N : Num A) (x x' : list A),
      List.length (quick_plot.f2 x) = List.length x /\
      quick_plot.f2 (x ++ x') = quick_plot.f2 x ++ quick_plot.f2 x') /\
  (forall x : list float,
      Forall2 (fun l q => PrimFloat.leb l q = true \/ PrimFloat.eqb q q = false)
              (quick_plot.f1 x) (quick_plot.f2 x)) /\
  (forall xi : float,
      In xi quick_plot.xrange ->
      if (PrimFloat.leb 1195 xi && PrimFloat.leb xi 10769)%bool
      then quick_plot.f2 [xi] = quick_plot.f1 [xi]
      else exists l q : float,
          quick_plot.f1 [xi] = [l] /\ quick_plot.f2 [xi] = [q] /\
          q = quadratic xi /\ PrimFloat.ltb l q = true).
Proof.
  split; [|split].
  - intros A N x x'. rewrite !f2_map, length_map, map_app. split; reflexivity.
  - intros x. rewrite f1_map, f2_map.
    induction x as [|xi x IH]; simpl; constructor; [|exact IH].
    apply FloatPlot.maximum_above.
  - intros xi Hxi.
    destruct (FloatPlot.xrange_elements xi Hxi) as (i & Hi & ->).
    pose proof (FloatPlot.all_from_spec _ _ 0 i FloatPlot.points_ok) as Hok.
    assert (Hin : (0 <= i < 0 + Z.of_nat (Z.to_nat 50000))%Z) by lia.
    specialize (Hok Hin). clear Hin.
    unfold FloatPlot.point_ok in Hok. rewrite f1_map, f2_map.
    set (xi := Float64.of_int i) in *. cbn [map].
    destruct (PrimFloat.leb 1195 xi && PrimFloat.leb xi 10769)%bool.
    + apply FloatAxioms.Leibniz.eqb_spec in Hok. f_equal. exact Hok.
    + apply andb_true_iff in Hok. destruct Hok as [Hq Hlt].
      apply FloatAxioms.Leibniz.eqb_spec in Hq.
      eexists. eexists. split; [reflexivity|]. split; [reflexivity|].
      split; [exact Hq|exact Hlt].
Qed.

Lemma f2_is_the_line_in_the_middle_witness :
  quick_plot.f2 [5000%float] = quick_plot.f1 [5000%float].
Proof.
  apply (proj2 (proj2 f2_is_the_line_in_the_middle) 5000%float).
  unfold quick_plot.xrange. apply in_map_iff.
  exists (Z.to_nat 5000). split; [reflexivity|]. apply in_seq. lia.
Defined.

(** ** What is plotted of a throw *)

Section PlottedPoints.
Context {A : Type} `{Num A}.

Import pitches.

Lemma Forall2_nth_error {T U : Type} (P : T -> U -> Prop) (l : list T)
    (xs : list U) (i : nat) (a : T) (x : U) :
  Forall2 P l xs ->
  nth_error l i = Some a -> nth_error xs i = Some x -> P a x.
Proof.
  intros Hall. revert i.
  induction Hall as [|a' x' l xs Hax _ IH]; intros [|i]; simpl;
    try discriminate.
  - intros [= <-] [= <-]. exact Hax.
  - apply IH.
Qed.

Lemma while_test_true (pos : list A) (distance x y : A) :
  while_test pos distance = Ok true ->
  nth_error pos 0 = Some x -> nth_error pos 1 = Some y ->
  ltb x distance = true /\ gtb y (of_int 0) = true.
Proof.
  unfold while_test, index.
  destruct pos as [|x' [|y' rest]]; simpl; try discriminate.
  intros Htest [= <-] [= <-].
  destruct (ltb x' distance); [|discriminate].
  injection Htest as ->. split; reflexivity.
Qed.

Lemma while_test_false (pos : list A) (distance x y : A) :
  while_test pos distance = Ok false ->
  nth_error pos 0 = Some x -> nth_error pos 1 = Some y ->
  ltb x distance && gtb y (of_int 0) = false.
Proof.
  unfold while_test, index.
  destruct pos as [|x' [|y' rest]]; simpl; try discriminate.
  intros Htest [= <-] [= <-].
  destruct (ltb x' distance); [|reflexivity].
  injection Htest as ->. reflexivity.
Qed.

(** Every recorded position of a throw of a Pitch whose trail is its
    position alone is the position of a state of the run. *)
Lemma trail_entry_is_a_state (f_gravity : list A) (dt : A) (k i : nat)
    (self self' : Pitch A) :
  trail self = [position self] ->
  steps k f_gravity dt self = Ok self' ->
  (i <= k)%nat ->
  exists si, steps i f_gravity dt self = Ok si /\
             nth_error (trail self') i = Some (position si).
Proof.
  intros Hfresh Hsteps Hi.
  destruct (steps_prefix f_gravity dt i k self self' Hi Hsteps) as (si & Hsi & _).
  exists si. split; [exact Hsi|].
  destruct i as [|j].
  - injection Hsi as <-.
    destruct (steps_trail f_gravity dt _ _ _ Hsteps) as (new & -> & _).
    rewrite Hfresh. reflexivity.
  - pose proof (steps_trail_nth f_gravity dt j k self si self' Hi Hsteps Hsi)
      as Hnth.
    rewrite Hfresh in Hnth. exact Hnth.
Qed.

End PlottedPoints.

(** X21.  Of a throw of a new Pitch with three components in position,
    velocity and spin (the mass of the class not [== 0]), the depths and
    the heights that [add_to_plot] reads off the trail are there for every
    recorded position; every point but the last has a depth below the
    distance and a height above 0, and the last point has not. *)
Theorem plotted_points_are_in_flight_but_the_last
    (A : Type) (N : Num A) (p v s : list A) (l c : string) (distance dt : A)
    (fuel : nat) (self' : pitches.Pitch A) :
  List.length p = 3%nat ->
  List.length v = 3%nat ->
  List.length s = 3%nat ->
  eqb (pitches.class_mass (A:=A)) (of_int 0) = false ->
  pitches.throw fuel (pitches.__init__ p v s l c) distance dt = Some (Ok self') ->
  exists xs ys : list A,
    baseball_plotter.get_axis (pitches.trail self') 0 = Ok xs /\
    baseball_plotter.get_axis (pitches.trail self') 1 = Ok ys /\
    List.length xs = List.length (pitches.trail self') /\
    List.length ys = List.length (pitches.trail self') /\
    forall (i : nat) (x y : A),
      nth_error xs i = Some x ->
      nth_error ys i = Some y ->
      if Nat.eqb (S i) (List.length (pitches.trail self'))
      then ltb x distance && gtb y (of_int 0) = false
      else ltb x distance = true /\ gtb y (of_int 0) = true.
Proof.
  intros Hp Hv Hs Hm Hthrow.
  set (self := pitches.__init__ p v s l c) in *.
  assert (Hready : ready self).
  { repeat split; simpl; try assumption; try lia. repeat constructor. exact Hp. }
  destruct (throw_ready _ _ _ _ _ Hready Hthrow) as (p' & [= <-] & Ht' & _).
  destruct (throw_loop_sound _ _ _ _ _ _ Hthrow)
    as (k & _ & Hsteps & Hstop & Hbefore).
  pose proof (steps_trail_length _ _ _ _ _ Hsteps) as Hlen.
  simpl in Hlen.
  destruct (get_axis_ok _ 0 (Forall_ge_3 _ 0 ltac:(lia) Ht')) as (xs & Hxs & Hcx).
  destruct (get_axis_ok _ 1 (Forall_ge_3 _ 1 ltac:(lia) Ht')) as (ys & Hys & Hcy).
  pose proof (get_axis_length _ _ _ Hxs) as Lx.
  pose proof (get_axis_length _ _ _ Hys) as Ly.
  exists xs, ys. repeat split; try assumption.
  intros i x y Hx Hy.
  assert (Hi : (i <= k)%nat).
  { assert (i < List.length xs)%nat by (apply nth_error_Some; congruence). lia. }
  destruct (trail_entry_is_a_state _ dt k i self self' eq_refl Hsteps Hi)
    as (si & Hsi & Hentry).
  pose proof (Forall2_nth_error _ _ _ _ _ _ Hcx Hentry Hx) as Hx0.
  pose proof (Forall2_nth_error _ _ _ _ _ _ Hcy Hentry Hy) as Hy1.
  simpl in Hx0, Hy1.
  destruct (Nat.eqb (S i) (List.length (pitches.trail self'))) eqn:Hlast.
  - apply Nat.eqb_eq in Hlast.
    assert (i = k) as -> by lia.
    assert (si = self') as -> by congruence.
    exact (while_test_false _ _ _ _ Hstop Hx0 Hy1).
  - apply Nat.eqb_neq in Hlast.
    assert (Hik : (i < k)%nat) by lia.
    exact (while_test_true _ _ _ _ (Hbefore i si Hik Hsi) Hx0 Hy1).
Qed.

Lemma plotted_points_are_in_flight_but_the_last_witness :
  exists xs ys : list float,
    baseball_plotter.get_axis (pitches.trail Runs.slow_ball_thrown_short) 0 = Ok xs /\
    baseball_plotter.get_axis (pitches.trail Runs.slow_ball_thrown_short) 1 = Ok ys /\
    List.length xs = List.length (pitches.trail Runs.slow_ball_thrown_short) /\
    List.length ys = List.length (pitches.trail Runs.slow_ball_thrown_short) /\
    forall (i : nat) (x y : float),
      nth_error xs i = Some x ->
      nth_error ys i = Some y ->
      if Nat.eqb (S i) (List.length (pitches.trail Runs.slow_ball_thrown_short))
      then ltb x 3%float && gtb y (of_int 0) = false
      else ltb x 3%float = true /\ gtb y (of_int 0) = true.
Proof.
  apply (plotted_points_are_in_flight_but_the_last float float_Num
           [0; 1; 0]%float [10; 0; 0]%float [0; 0; 0]%float
           "Custom Pitch"%string "gray"%string 3%float 0.125%float 3
           Runs.slow_ball_thrown_short);
    [reflexivity|reflexivity|reflexivity|reflexivity|vm_compute; reflexivity].
Defined.
